(** * RiskShield: the two PostToolUse hooks for Go files

    [scripts/hooks/post-edit-typecheck-go.js] holds two Node.js scripts:
    the vet hook (go vet after an edit, diagnostics filtered to the edited
    file) and the format hook (goimports on the edited file).  Both read
    an edit event from standard input, act on it, and echo what they read.

    The scripts are embedded as pure functions over an explicit model of
    the Node.js runtime they call into: the runtime's built-ins
    (JSON.parse, path, fs.existsSync, child_process.execFileSync) are the
    fields of a record, effects are recorded as a trace of calls, and
    JavaScript's completions (normal, throw, return) are a small monad. *)

From Stdlib Require Import String Ascii List NArith Bool Arith Lia.
From Equations.Prop Require Import Equations Logic.
Import ListNotations.
Open Scope string_scope.
Set Warnings "-register-all".

(** ** JavaScript strings

    A string is a sequence of code units; [String.length] is [.length]. *)

Module JsString.

(** [s.length] *)
Definition js_length (s : string) : N := N.of_nat (String.length s).

(** [s.includes(needle)] *)
Fixpoint includes (s needle : string) : bool :=
  String.prefix needle s
  || match s with
     | EmptyString => false
     | String _ s' => includes s' needle
     end.

(** [s.endsWith(suffix)] *)
Fixpoint ends_with (s suffix : string) : bool :=
  String.eqb s suffix
  || match s with
     | EmptyString => false
     | String _ s' => ends_with s' suffix
     end.

(** [/\.go$/.test(s)]: without the multiline flag [$] matches at the end
    of the input only, so the test is a suffix test. *)
Definition regexp_go_test (s : string) : bool := ends_with s ".go".

Definition LF : ascii := "010"%char.

(** [s.split('\n')] *)
Fixpoint split_lines (s : string) : list string :=
  match s with
  | EmptyString => [EmptyString]
  | String c s' =>
      if Ascii.eqb c LF then EmptyString :: split_lines s'
      else match split_lines s' with
           | line :: rest => String c line :: rest
           | [] => [String c EmptyString]
           end
  end.

(** The whole input: the chunks of a stream, one after the other. *)
Definition concat_chunks (chunks : list string) : string :=
  fold_right String.append "" chunks.

End JsString.

Import JsString.

(** ** JavaScript values, completions and the runtime *)

Module Js.

Section Values.

(** The number type of the runtime (IEEE doubles in Node.js); the hooks
    only ever test a number for truthiness and convert it to a string. *)
Context {number : Type}.

(** The values [JSON.parse] produces, and [undefined].  An object holds
    its own properties, one entry per key. *)
Inductive value : Type :=
| VUndefined
| VNull
| VBool (b : bool)
| VNumber (x : number)
| VString (s : string)
| VArray (elems : list value)
| VObject (props : list (string * value)).

(** What a [throw] carries.  The hooks read two properties of a caught
    error, [err.stdout] and [err.stderr]; [None] is a missing, undefined
    or null property (a TypeError, a SyntaxError, a spawn failure). *)
Record error : Type := Error {
  err_stdout : option string;
  err_stderr : option string
}.

Definition TypeError : error := Error None None.
Definition SyntaxError : error := Error None None.

(** Result of [execFileSync]: it returns when the child exits with
    code 0, and throws otherwise (non-zero exit, spawn failure, timeout). *)
Inductive exec_result : Type :=
| Exited0
| ExecThrows (err : error).

(** The calls a hook makes that are visible from outside. *)
Inductive event : Type :=
| ConsoleLog (s : string)
| ConsoleError (s : string)
| ExecFileSync (file : string) (args : list value) (cwd : option string).

(** Completion of a statement list. *)
Inductive completion (A : Type) : Type :=
| Normal (a : A)
| Throw (e : error)
| Return.

(** A computation: the calls made so far and how it completed. *)
Definition js (A : Type) : Type := list event * completion A.

Definition ret {A} (a : A) : js A := ([], Normal A a).
Definition throw {A} (e : error) : js A := ([], Throw A e).
Definition return_ {A} : js A := ([], Return A).
Definition emit (e : event) : js unit := ([e], Normal unit tt).

Definition bind {A B} (m : js A) (k : A -> js B) : js B :=
  match m with
  | (t, Normal _ a) => let (t', r) := k a in ((t ++ t')%list, r)
  | (t, Throw _ e) => (t, Throw B e)
  | (t, Return _) => (t, Return B)
  end.

(** [try { body } catch (err) { handler }] *)
Definition try_catch {A} (body : js A) (handler : error -> js A) : js A :=
  match body with
  | (t, Throw _ e) => let (t', r) := handler e in ((t ++ t')%list, r)
  | other => other
  end.

(** A call of a function whose body is [body]: [return] ends the call. *)
Definition call (body : js unit) : js unit :=
  match body with
  | (t, Return _) => (t, Normal unit tt)
  | other => other
  end.

(** The Node.js built-ins the hooks use. *)
Record Node : Type := {
  number_truthy : number -> bool;
  number_to_string : number -> string;
  (** [JSON.parse(text)]; [None] when it throws a SyntaxError *)
  JSON_parse : string -> option value;
  (** [path.resolve(p)], for the current working directory *)
  path_resolve : string -> string;
  path_dirname : string -> string;
  (** [path.parse(p).root] *)
  path_parse_root : string -> string;
  (** [path.join(a, b)] *)
  path_join : string -> string -> string;
  path_basename : string -> string;
  fs_existsSync : string -> bool;
  (** [execFileSync(file, args, {cwd, ...})] *)
  child_process_execFileSync :
    string -> list value -> option string -> exec_result
}.

Variable node : Node.

Fixpoint own_property (props : list (string * value)) (key : string)
  : option value :=
  match props with
  | [] => None
  | (k, v) :: rest => if String.eqb k key then Some v else own_property rest key
  end.

(** [strings.join(sep)] when every conversion went through. *)
Fixpoint join_all (sep : string) (parts : list (option string))
  : option string :=
  match parts with
  | [] => Some ""
  | Some a :: [] => Some a
  | Some a :: rest =>
      match join_all sep rest with
      | Some b => Some (a ++ sep ++ b)
      | None => None
      end
  | None :: _ => None
  end.

(** ToString; [None] when it throws a TypeError.  An array is its
    elements joined by commas, with null and undefined elements as empty
    strings.  An object without an own [toString] property takes
    [Object.prototype.toString]; with one, which in a parsed value is
    never a function, neither it nor [valueOf] yields a primitive and
    the conversion throws. *)
Fixpoint to_string (v : value) : option string :=
  match v with
  | VUndefined => Some "undefined"
  | VNull => Some "null"
  | VBool true => Some "true"
  | VBool false => Some "false"
  | VNumber x => Some (number_to_string node x)
  | VString s => Some s
  | VArray elems =>
      join_all ","
        (map (fun e => match e with
                       | VUndefined | VNull => Some ""
                       | _ => to_string e
                       end) elems)
  | VObject props =>
      match own_property props "toString" with
      | Some _ => None
      | None => Some "[object Object]"
      end
  end.

(** ToBoolean *)
Definition truthy (v : value) : bool :=
  match v with
  | VUndefined | VNull => false
  | VBool b => b
  | VNumber x => number_truthy node x
  | VString s => negb (String.eqb s "")
  | VArray _ | VObject _ => true
  end.

(** [v.key], for a key that no prototype defines ([tool_input],
    [file_path]): a TypeError on null and undefined, the own property of
    an object, undefined on everything else. *)
Definition get (v : value) (key : string) : js value :=
  match v with
  | VUndefined | VNull => throw TypeError
  | VObject props =>
      match own_property props key with
      | Some x => ret x
      | None => ret VUndefined
      end
  | _ => ret VUndefined
  end.

(** [v?.key] *)
Definition get_optional (v : value) (key : string) : js value :=
  match v with
  | VUndefined | VNull => ret VUndefined
  | _ => get v key
  end.

(** [JSON.parse(text)] *)
Definition json_parse (text : string) : js value :=
  match JSON_parse node text with
  | Some v => ret v
  | None => throw SyntaxError
  end.

(** The path functions validate their argument: a TypeError unless it is
    a string. *)
Definition path_argument (v : value) : js string :=
  match v with
  | VString s => ret s
  | _ => throw TypeError
  end.

(** [v && /\.go$/.test(v)], as the condition of an [if]: the test is
    not made on a falsy value; it converts its argument with ToString. *)
Definition truthy_and_go_test (v : value) : js bool :=
  if truthy v then
    match to_string v with
    | Some s => ret (regexp_go_test s)
    | None => throw TypeError
    end
  else ret false.

(** [console.log(s)], [console.error(s)] *)
Definition console_log (s : string) : js unit := emit (ConsoleLog s).
Definition console_error (s : string) : js unit := emit (ConsoleError s).

(** [lines.forEach(line => console.error(line))] *)
Fixpoint for_each_console_error (lines : list string) : js unit :=
  match lines with
  | [] => ret tt
  | line :: rest => bind (console_error line) (fun _ => for_each_console_error rest)
  end.

(** [execFileSync(file, args, {cwd, ...})] *)
Definition execFileSync (file : string) (args : list value)
  (cwd : option string) : js unit :=
  bind (emit (ExecFileSync file args cwd)) (fun _ =>
  match child_process_execFileSync node file args cwd with
  | Exited0 => ret tt
  | ExecThrows err => throw err
  end).

(** [x || ''] for a property that is a string when present *)
Definition or_empty (x : option string) : string :=
  match x with
  | Some s => s
  | None => ""
  end.

End Values.

Arguments value : clear implicits.
Arguments event : clear implicits.
Arguments js : clear implicits.
Arguments Node : clear implicits.
Arguments Normal {A} a.
Arguments Throw {A} e.
Arguments Return {A}.

(** ** What the process shows to the outside *)

Section Observations.

Context {number : Type}.

(** [console.log] writes its argument and a line feed to standard
    output; [console.error] does the same on standard error. *)
Definition line (s : string) : string := s ++ String LF EmptyString.

Fixpoint stdout_of (t : list (event number)) : string :=
  match t with
  | [] => ""
  | ConsoleLog s :: rest => line s ++ stdout_of rest
  | _ :: rest => stdout_of rest
  end.

Fixpoint stderr_of (t : list (event number)) : string :=
  match t with
  | [] => ""
  | ConsoleError s :: rest => line s ++ stderr_of rest
  | _ :: rest => stderr_of rest
  end.

(** The arguments of the [console.log] calls, in order. *)
Fixpoint logged (t : list (event number)) : list string :=
  match t with
  | [] => []
  | ConsoleLog s :: rest => s :: logged rest
  | _ :: rest => logged rest
  end.

(** The arguments of the [console.error] calls, in order. *)
Fixpoint reported (t : list (event number)) : list string :=
  match t with
  | [] => []
  | ConsoleError s :: rest => s :: reported rest
  | _ :: rest => reported rest
  end.

Definition is_spawn (e : event number) : bool :=
  match e with
  | ExecFileSync _ _ _ => true
  | _ => false
  end.

(** The subprocesses started. *)
Definition spawned (t : list (event number)) : list (event number) :=
  filter is_spawn t.

(** Exit code of the process once the [end] handler has run: 0 when it
    completed, 1 when an exception escaped it. *)
Definition exit_code (r : js number unit) : N :=
  match snd r with
  | Throw _ => 1
  | _ => 0
  end.

End Observations.

End Js.

Import Js.

Declare Scope js_scope.
Delimit Scope js_scope with js.
Notation "x <- m ;; k" := (bind m (fun x => k))
  (at level 61, m at next level, right associativity) : js_scope.
Notation "m ;; k" := (bind m (fun _ => k))
  (at level 61, right associativity) : js_scope.
Open Scope js_scope.

(** ** The vet hook (first script of the file) *)

Module VetHook.

Section Script.

Context {number : Type}.
Variable node : Node number.

Definition MAX_STDIN : N := 1024 * 1024.

(** [process.stdin.on('data', chunk => ...)]: the new value of [data] *)
Definition on_data (data chunk : string) : string :=
  if (js_length data <? MAX_STDIN)%N then data ++ chunk else data.

(** The stream delivers its chunks one by one, then ends. *)
Definition read_stdin (chunks : list string) : string :=
  fold_left on_data chunks "".

(** The [while] loop: the value of [dir] when it is left.  The loop
    stops because [depth] grows towards 20. *)
Definition levels_left (depth : nat) : nat := 20 - depth.

Equations? walk (root dir : string) (depth : nat) : string
  by wf (levels_left depth) lt :=
  walk root dir depth
    with inspect (negb (String.eqb dir root) && (depth <? 20)%nat) => {
    | exist _ true _ =>
        if fs_existsSync node (path_join node dir "go.mod") then dir
        else walk root (path_dirname node dir) (S depth)
    | exist _ false _ => dir }.
Proof.
  apply andb_prop in e. destruct e as [_ Hd].
  apply Nat.ltb_lt in Hd. unfold levels_left. lia.
Qed.

(** The [catch (err)] block around the go vet call *)
Definition report (filePath : string) (err : error) : js number unit :=
  let output := or_empty (err_stdout err) ++ or_empty (err_stderr err) in
  let relevantLines :=
    firstn 10
      (filter (fun line => includes line filePath
                           || includes line (path_basename node filePath))
              (split_lines output)) in
  if (0 <? length relevantLines)%nat then
    console_error ("[Hook] Go vet errors in "
                   ++ path_basename node filePath ++ ":") ;;
    for_each_console_error relevantLines
  else ret tt.

(** [process.stdin.on('end', () => ...)] *)
Definition on_end (data : string) : js number unit :=
  call (
    try_catch (
      input <- json_parse node data ;;
      tool_input <- get input "tool_input" ;;
      filePath <- get_optional tool_input "file_path" ;;
      go <- truthy_and_go_test node filePath ;;
      if go then
        p <- path_argument filePath ;;
        let resolvedPath := path_resolve node p in
        if negb (fs_existsSync node resolvedPath) then
          console_log data ;; return_
        else
          let dir := path_dirname node resolvedPath in
          let root := path_parse_root node dir in
          let dir := walk root dir 0 in
          if fs_existsSync node (path_join node dir "go.mod") then
            try_catch
              (execFileSync node "go" [VString "vet"; VString "./..."]
                 (Some dir))
              (fun err => report p err)
          else ret tt
      else ret tt)
      (fun _ => ret tt) ;;
    console_log data).

(** One run of the script on a stream of chunks. *)
Definition run (chunks : list string) : js number unit :=
  on_end (read_stdin chunks).

End Script.

End VetHook.

(** ** The format hook (second script of the file) *)

Module FormatHook.

Section Script.

Context {number : Type}.
Variable node : Node number.

Definition MAX_STDIN : N := 1024 * 1024.

(** [process.stdin.on('data', chunk => ...)]: the new value of [data] *)
Definition on_data (data chunk : string) : string :=
  if (js_length data <? MAX_STDIN)%N then data ++ chunk else data.

Definition read_stdin (chunks : list string) : string :=
  fold_left on_data chunks "".

(** [process.stdin.on('end', () => ...)] *)
Definition on_end (data : string) : js number unit :=
  call (
    try_catch (
      input <- json_parse node data ;;
      tool_input <- get input "tool_input" ;;
      filePath <- get_optional tool_input "file_path" ;;
      go <- truthy_and_go_test node filePath ;;
      if go then
        try_catch
          (execFileSync node "goimports" [VString "-w"; filePath] None)
          (fun _ => ret tt)
      else ret tt)
      (fun _ => ret tt) ;;
    console_log data).

Definition run (chunks : list string) : js number unit :=
  on_end (read_stdin chunks).

End Script.

End FormatHook.

(** ** A reference runtime: POSIX paths, a JSON reader, a fixed file tree

    Used to run the hooks on concrete events.  The theorems below hold
    for every [Node]; this one follows Node.js on a POSIX system. *)

Module Posix.

Definition SLASH : ascii := "/"%char.

(** [p.split('/')] *)
Fixpoint split_slash (p : string) : list string :=
  match p with
  | EmptyString => [EmptyString]
  | String c p' =>
      if Ascii.eqb c SLASH then EmptyString :: split_slash p'
      else match split_slash p' with
           | seg :: rest => String c seg :: rest
           | [] => [String c EmptyString]
           end
  end.

(** Node's [normalizeString]: drops empty and [.] segments and resolves
    [..]; [stack] holds the segments kept so far, last one first. *)
Fixpoint normalize_segments (allow_above_root : bool)
  (stack : list string) (segs : list string) : list string :=
  match segs with
  | [] => rev stack
  | seg :: rest =>
      if String.eqb seg "" || String.eqb seg "." then
        normalize_segments allow_above_root stack rest
      else if String.eqb seg ".." then
        match stack with
        | top :: stack' =>
            if String.eqb top ".." then
              normalize_segments allow_above_root (".." :: stack) rest
            else normalize_segments allow_above_root stack' rest
        | [] =>
            if allow_above_root then
              normalize_segments allow_above_root [".."] rest
            else normalize_segments allow_above_root [] rest
        end
      else normalize_segments allow_above_root (seg :: stack) rest
  end.

Definition is_absolute (p : string) : bool := String.prefix "/" p.

(** [path.normalize(p)] *)
Definition normalize (p : string) : string :=
  match p with
  | EmptyString => "."
  | _ =>
      let absolute := is_absolute p in
      let trailing := ends_with p "/" in
      let body :=
        String.concat "/"
          (normalize_segments (negb absolute) [] (split_slash p)) in
      match body with
      | EmptyString =>
          if absolute then "/" else if trailing then "./" else "."
      | _ =>
          let body := if trailing then body ++ "/" else body in
          if absolute then "/" ++ body else body
      end
  end.

(** [path.resolve(p)] with the working directory [cwd] (absolute) *)
Definition resolve (cwd p : string) : string :=
  let full := if is_absolute p then p else cwd ++ "/" ++ p in
  "/" ++ String.concat "/" (normalize_segments false [] (split_slash full)).

(** [path.join(a, b)] *)
Definition join (a b : string) : string :=
  match a, b with
  | EmptyString, EmptyString => "."
  | EmptyString, _ => normalize b
  | _, EmptyString => normalize a
  | _, _ => normalize (a ++ "/" ++ b)
  end.

(** The backwards scan of [path.dirname]: [r] holds the code units at
    indices i, i-1, ..., 1; the result is what lies before the slash
    that ends the directory part, in the same order. *)
Fixpoint dirname_scan (r : list ascii) (matchedSlash : bool)
  : option (list ascii) :=
  match r with
  | [] => None
  | c :: r' =>
      if Ascii.eqb c SLASH then
        if matchedSlash then dirname_scan r' true else Some r'
      else dirname_scan r' false
  end.

(** [path.dirname(p)] *)
Definition dirname (p : string) : string :=
  match p with
  | EmptyString => "."
  | String c0 rest =>
      let hasRoot := Ascii.eqb c0 SLASH in
      match dirname_scan (rev (list_ascii_of_string rest)) true with
      | None => if hasRoot then "/" else "."
      | Some [] => if hasRoot then "//" else String c0 EmptyString
      | Some r' => String c0 (string_of_list_ascii (rev r'))
      end
  end.

Fixpoint drop_slashes (r : list ascii) : list ascii :=
  match r with
  | c :: r' => if Ascii.eqb c SLASH then drop_slashes r' else r
  | [] => []
  end.

Fixpoint take_segment (r : list ascii) : list ascii :=
  match r with
  | c :: r' => if Ascii.eqb c SLASH then [] else c :: take_segment r'
  | [] => []
  end.

(** [path.basename(p)] *)
Definition basename (p : string) : string :=
  string_of_list_ascii
    (rev (take_segment (drop_slashes (rev (list_ascii_of_string p))))).

(** [path.parse(p).root] *)
Definition parse_root (p : string) : string :=
  if is_absolute p then "/" else "".

End Posix.

(** A reader for JSON texts (RFC 8259).  A number is kept as its literal.
    [JSON.parse] accepts every [\u] escape; this reader reads those that
    name a code unit below 256 and declines the others, which [string]
    cannot hold.  None of the events below has one. *)

Module Json.

Definition number : Type := string.
Definition value : Type := Js.value number.

Definition QUOTE : ascii := "034"%char.
Definition BACKSLASH : ascii := "092"%char.

Definition is_ws (c : ascii) : bool :=
  Ascii.eqb c " " || Ascii.eqb c "009" || Ascii.eqb c "010"
  || Ascii.eqb c "013".

Fixpoint skip_ws (s : string) : string :=
  match s with
  | String c s' => if is_ws c then skip_ws s' else s
  | EmptyString => s
  end.

Definition is_digit (c : ascii) : bool :=
  let n := N_of_ascii c in ((48 <=? n) && (n <=? 57))%N.

Definition hex_digit (c : ascii) : option N :=
  let n := N_of_ascii c in
  if ((48 <=? n) && (n <=? 57))%N then Some (n - 48)%N
  else if ((65 <=? n) && (n <=? 70))%N then Some (n - 55)%N
  else if ((97 <=? n) && (n <=? 102))%N then Some (n - 87)%N
  else None.

(** After [\u]: four hex digits. *)
Definition read_unicode_escape (s : string) : option (ascii * string) :=
  match s with
  | String a (String b (String c (String d rest))) =>
      match hex_digit a, hex_digit b, hex_digit c, hex_digit d with
      | Some x3, Some x2, Some x1, Some x0 =>
          let code := (((x3 * 16 + x2) * 16 + x1) * 16 + x0)%N in
          if (code <? 256)%N then Some (ascii_of_N code, rest) else None
      | _, _, _, _ => None
      end
  | _ => None
  end.

(** After the opening quote: the string's contents and what follows the
    closing quote. *)
Fixpoint read_string (fuel : nat) (s : string) : option (string * string) :=
  match fuel with
  | O => None
  | S fuel' =>
      match s with
      | EmptyString => None
      | String c rest =>
          if Ascii.eqb c QUOTE then Some (EmptyString, rest)
          else if Ascii.eqb c BACKSLASH then
            match rest with
            | String e rest' =>
                let plain (x : ascii) :=
                  match read_string fuel' rest' with
                  | Some (body, tail) => Some (String x body, tail)
                  | None => None
                  end in
                if Ascii.eqb e QUOTE then plain QUOTE
                else if Ascii.eqb e BACKSLASH then plain BACKSLASH
                else if Ascii.eqb e "/" then plain "/"%char
                else if Ascii.eqb e "b" then plain "008"%char
                else if Ascii.eqb e "f" then plain "012"%char
                else if Ascii.eqb e "n" then plain "010"%char
                else if Ascii.eqb e "r" then plain "013"%char
                else if Ascii.eqb e "t" then plain "009"%char
                else if Ascii.eqb e "u" then
                  match read_unicode_escape rest' with
                  | Some (x, rest'') =>
                      match read_string fuel' rest'' with
                      | Some (body, tail) => Some (String x body, tail)
                      | None => None
                      end
                  | None => None
                  end
                else None
            | EmptyString => None
            end
          else if (N_of_ascii c <? 32)%N then None
          else
            match read_string fuel' rest with
            | Some (body, tail) => Some (String c body, tail)
            | None => None
            end
      end
  end.

(** The digits at the front of [s], and the rest. *)
Fixpoint read_digits (s : string) : string * string :=
  match s with
  | String c s' =>
      if is_digit c then
        let (ds, rest) := read_digits s' in (String c ds, rest)
      else (EmptyString, s)
  | EmptyString => (EmptyString, s)
  end.

(** [int]: a zero, or digits that do not start with a zero. *)
Definition read_int (s : string) : option (string * string) :=
  match read_digits s with
  | (EmptyString, _) => None
  | (String "0" EmptyString, rest) => Some ("0", rest)
  | (String "0" _, _) => None
  | (ds, rest) => Some (ds, rest)
  end.

Definition read_frac (s : string) : option (string * string) :=
  match s with
  | String "." s' =>
      match read_digits s' with
      | (EmptyString, _) => None
      | (ds, rest) => Some (String "." ds, rest)
      end
  | _ => Some (EmptyString, s)
  end.

Definition read_exp (s : string) : option (string * string) :=
  match s with
  | String c s' =>
      if Ascii.eqb c "e" || Ascii.eqb c "E" then
        let (sign, s'') :=
          match s' with
          | String "+" t => ("+", t)
          | String "-" t => ("-", t)
          | _ => (EmptyString, s')
          end in
        match read_digits s'' with
        | (EmptyString, _) => None
        | (ds, rest) => Some (String c (sign ++ ds), rest)
        end
      else Some (EmptyString, s)
  | EmptyString => Some (EmptyString, s)
  end.

(** [number = [ minus ] int [ frac ] [ exp ]]: the literal and the rest *)
Definition read_number (s : string) : option (string * string) :=
  let (sign, s1) :=
    match s with
    | String "-" t => ("-", t)
    | _ => (EmptyString, s)
    end in
  match read_int s1 with
  | Some (i, s2) =>
      match read_frac s2 with
      | Some (f, s3) =>
          match read_exp s3 with
          | Some (e, s4) => Some (sign ++ i ++ f ++ e, s4)
          | None => None
          end
      | None => None
      end
  | None => None
  end.

(** Defining a property: a later member with the same name wins. *)
Fixpoint set_property (props : list (string * value)) (k : string)
  (v : value) : list (string * value) :=
  match props with
  | [] => [(k, v)]
  | (k', v') :: rest =>
      if String.eqb k' k then (k, v) :: rest
      else (k', v') :: set_property rest k v
  end.

Definition drop (n : nat) (s : string) : string :=
  String.substring n (String.length s - n) s.

(** [read_value]: a value and what follows it.  [read_elements] and
    [read_members] read what follows the opening bracket or a comma. *)
Fixpoint read_value (fuel : nat) (s : string) : option (value * string) :=
  match fuel with
  | O => None
  | S fuel' =>
      match skip_ws s with
      | EmptyString => None
      | String c rest as s0 =>
          if Ascii.eqb c "{" then
            match skip_ws rest with
            | String "}" tail => Some (VObject [], tail)
            | _ => read_members fuel' rest []
            end
          else if Ascii.eqb c "[" then
            match skip_ws rest with
            | String "]" tail => Some (VArray [], tail)
            | _ => read_elements fuel' rest []
            end
          else if Ascii.eqb c QUOTE then
            match read_string (String.length rest) rest with
            | Some (body, tail) => Some (VString body, tail)
            | None => None
            end
          else if String.prefix "true" s0 then Some (VBool true, drop 4 s0)
          else if String.prefix "false" s0 then Some (VBool false, drop 5 s0)
          else if String.prefix "null" s0 then Some (VNull, drop 4 s0)
          else
            match read_number s0 with
            | Some (lit, tail) => Some (VNumber lit, tail)
            | None => None
            end
      end
  end

with read_elements (fuel : nat) (s : string) (acc : list value)
  : option (value * string) :=
  match fuel with
  | O => None
  | S fuel' =>
      match read_value fuel' s with
      | Some (v, tail) =>
          match skip_ws tail with
          | String "," tail' => read_elements fuel' tail' (acc ++ [v])
          | String "]" tail' => Some (VArray (acc ++ [v]), tail')
          | _ => None
          end
      | None => None
      end
  end

with read_members (fuel : nat) (s : string) (acc : list (string * value))
  : option (value * string) :=
  match fuel with
  | O => None
  | S fuel' =>
      match skip_ws s with
      | String c rest =>
          if Ascii.eqb c QUOTE then
            match read_string (String.length rest) rest with
            | Some (k, tail) =>
                match skip_ws tail with
                | String ":" tail' =>
                    match read_value fuel' tail' with
                    | Some (v, tail'') =>
                        match skip_ws tail'' with
                        | String "," t =>
                            read_members fuel' t (set_property acc k v)
                        | String "}" t =>
                            Some (VObject (set_property acc k v), t)
                        | _ => None
                        end
                    | None => None
                    end
                | _ => None
                end
            | None => None
            end
          else None
      | EmptyString => None
      end
  end.

(** [JSON.parse(text)]: one value, with white space around it only. *)
Definition parse (text : string) : option value :=
  match read_value (2 * String.length text + 2) text with
  | Some (v, tail) =>
      match skip_ws tail with
      | EmptyString => Some v
      | _ => None
      end
  | None => None
  end.

(** A literal denotes zero when its digits before the exponent are all
    zeros. *)
Fixpoint significand_nonzero (lit : string) : bool :=
  match lit with
  | EmptyString => false
  | String c rest =>
      if Ascii.eqb c "e" || Ascii.eqb c "E" then false
      else (is_digit c && negb (Ascii.eqb c "0")) || significand_nonzero rest
  end.

End Json.

(** The reference runtime over a fixed world: a working directory, the
    paths that exist, and what the two tools do when they are run. *)

Module Host.

Record world : Type := {
  cwd : string;
  existing : list string;
  tools : string -> list Json.value -> option string -> exec_result
}.

Definition node (w : world) : Node Json.number := {|
  number_truthy := Json.significand_nonzero;
  number_to_string := fun lit => lit;
  JSON_parse := Json.parse;
  path_resolve := Posix.resolve (cwd w);
  path_dirname := Posix.dirname;
  path_parse_root := Posix.parse_root;
  path_join := Posix.join;
  path_basename := Posix.basename;
  fs_existsSync := fun p => existsb (String.eqb p) (existing w);
  child_process_execFileSync := tools w
|}.

(** Both tools exit with code 0. *)
Definition tools_ok : string -> list Json.value -> option string -> exec_result :=
  fun _ _ _ => Exited0.

(** Neither tool is installed: the spawn fails, the error has no output. *)
Definition tools_missing
  : string -> list Json.value -> option string -> exec_result :=
  fun _ _ _ => ExecThrows (Error None None).

End Host.

(** ** Notions the statements use *)

Module Spec.

Section Notions.

Context {number : Type}.
Variable node : Node number.

(** The file-path field of an edit event: the member [file_path] of its
    member [tool_input]. *)
Definition event_file_path (input : value number) : option (value number) :=
  match input with
  | VObject props =>
      match own_property props "tool_input" with
      | Some (VObject props') => own_property props' "file_path"
      | _ => None
      end
  | _ => None
  end.

(** The directory [k] levels above [dir]. *)
Definition ancestor (dir : string) (k : nat) : string :=
  Nat.iter k (path_dirname node) dir.

(** [dir] holds a module-root marker. *)
Definition has_marker (dir : string) : bool :=
  fs_existsSync node (path_join node dir "go.mod").

(** The directory the walk of the vet hook starts from. *)
Definition start_dir (filePath : string) : string :=
  path_dirname node (path_resolve node filePath).

(** A line of tool output mentions the edited file: it contains the
    path as given in the event, or its base name. *)
Definition mentions (filePath line : string) : bool :=
  includes line filePath || includes line (path_basename node filePath).

(** The banner that opens a report. *)
Definition banner (filePath : string) : string :=
  "[Hook] Go vet errors in " ++ path_basename node filePath ++ ":".

(** The combined output carried by a failed run. *)
Definition combined_output (err : error) : string :=
  or_empty (err_stdout err) ++ or_empty (err_stderr err).

(** The lines of a report: nothing when no line of the output mentions
    the file, else the banner and the first ten lines that do. *)
Definition report_lines (filePath : string) (err : error) : list string :=
  match filter (mentions filePath) (split_lines (combined_output err)) with
  | [] => []
  | relevant => banner filePath :: firstn 10 relevant
  end.

(** What the analysis in [dir] adds to standard error: nothing when it
    exits with code 0, the lines of its report otherwise. *)
Definition analysis_lines (filePath dir : string) : list string :=
  match child_process_execFileSync node "go"
          [VString "vet"; VString "./..."] (Some dir) with
  | Exited0 => []
  | ExecThrows err => report_lines filePath err
  end.

(** The analysis run in [dir], the formatter run on a path. *)
Definition go_vet (dir : string) : event number :=
  ExecFileSync "go" [VString "vet"; VString "./..."] (Some dir).

Definition goimports (filePath : value number) : event number :=
  ExecFileSync "goimports" [VString "-w"; filePath] None.

(** A run that only echoes: its one call is [console.log(data)], and
    this is what the process shows for it. *)
Definition passthrough (data : string) (r : js number unit) : Prop :=
  fst r = [ConsoleLog data]
  /\ exit_code r = 0%N
  /\ stdout_of (fst r) = line data
  /\ stderr_of (fst r) = ""
  /\ spawned (fst r) = [].

End Notions.

End Spec.

(** ** Concrete events and worlds *)

Module Scenario.

Definition quoted (s : string) : string :=
  String Json.QUOTE (s ++ String Json.QUOTE EmptyString).

(** The event [{"tool_input":{"file_path":"<p>"}}] (the quotes are
    code unit 34). *)
Definition edit_event (p : string) : string :=
  "{" ++ quoted "tool_input" ++ ":{" ++ quoted "file_path" ++ ":"
  ++ quoted p ++ "}}".

(** A module at [/repo] with one package; both tools succeed. *)
Definition repo : Host.world := {|
  Host.cwd := "/repo";
  Host.existing := ["/repo/go.mod"; "/repo/pkg/x.go"];
  Host.tools := Host.tools_ok
|}.

(** The same tree on a machine without the tools. *)
Definition repo_without_tools : Host.world := {|
  Host.cwd := "/repo";
  Host.existing := ["/repo/go.mod"; "/repo/pkg/x.go"];
  Host.tools := Host.tools_missing
|}.

(** Fifteen lines of analysis output; the twelve that start with [x.go]
    or [pkg/x.go] mention the edited file. *)
Definition vet_output : list string :=
  ["# example/pkg";
   "pkg/x.go:1:1: first";
   "pkg/x.go:2:1: second";
   "pkg/y.go:3:1: other file";
   "pkg/x.go:4:1: third";
   "x.go:5:1: fourth";
   "x.go:6:1: fifth";
   "x.go:7:1: sixth";
   "pkg/z.go:8:1: other file";
   "x.go:9:1: seventh";
   "x.go:10:1: eighth";
   "x.go:11:1: ninth";
   "x.go:12:1: tenth";
   "x.go:13:1: eleventh";
   "x.go:14:1: twelfth"].

(** The same tree with an analysis that exits non-zero and prints
    [vet_output] on its standard error. *)
Definition repo_vet_fails : Host.world := {|
  Host.cwd := "/repo";
  Host.existing := ["/repo/go.mod"; "/repo/pkg/x.go"];
  Host.tools := fun _ _ _ =>
    ExecThrows
      (Error (Some "") (Some (String.concat (String LF "") vet_output)))
|}.

(** A file whose directory is 20 levels below the module root [/m]: the
    directories are named after their depth, [/m] itself is at depth 20. *)
Definition deep_file : string :=
  "/m/19/18/17/16/15/14/13/12/11/10/9/8/7/6/5/4/3/2/1/0/x.go".

Definition deep : Host.world := {|
  Host.cwd := "/m";
  Host.existing := ["/m/go.mod"; deep_file];
  Host.tools := Host.tools_ok
|}.

Definition deep_event : list string := [edit_event deep_file].

(** One level more: [/m] is at depth 21. *)
Definition deeper_file : string :=
  "/m/20/19/18/17/16/15/14/13/12/11/10/9/8/7/6/5/4/3/2/1/0/x.go".

Definition deeper : Host.world := {|
  Host.cwd := "/m";
  Host.existing := ["/m/go.mod"; deeper_file];
  Host.tools := Host.tools_ok
|}.

Definition deeper_event : list string := [edit_event deeper_file].

(** A stream that does not parse. *)
Definition not_json : list string := ["not json"].

(** An edit of a file that is not a Go source. *)
Definition readme_event : list string := [edit_event "/repo/README.md"].

(** An edit of a Go source that is no longer on disk. *)
Definition gone_event : list string := [edit_event "/repo/pkg/gone.go"].

(** An event whose path is not a string but an array,
    [{"tool_input":{"file_path":["x.go"]}}]. *)
Definition array_event : list string :=
  ["{" ++ quoted "tool_input" ++ ":{" ++ quoted "file_path" ++ ":["
   ++ quoted "x.go" ++ "]}}"].

(** An event whose path is the array [["README.md"]]. *)
Definition readme_array_event : list string :=
  ["{" ++ quoted "tool_input" ++ ":{" ++ quoted "file_path" ++ ":["
   ++ quoted "README.md" ++ "]}}"].

(** An event whose path is the array [[{"toString":1},"x.go"]]: its
    first element has no string form. *)
Definition tostring_event : list string :=
  ["{" ++ quoted "tool_input" ++ ":{" ++ quoted "file_path" ++ ":[{"
   ++ quoted "toString" ++ ":1}," ++ quoted "x.go" ++ "]}}"].

(** The edit of [go_event], delivered as one chunk. *)
Definition go_event_whole : list string := [edit_event "/repo/pkg/x.go"].

(** An edit of the Go source of [repo], in two chunks. *)
Definition go_event : list string :=
  ["{" ++ quoted "tool_input" ++ ":{";
   quoted "file_path" ++ ":" ++ quoted "/repo/pkg/x.go" ++ "}}"].

(** What [go_event] parses to. *)
Definition go_event_value : Json.value :=
  VObject [("tool_input", VObject [("file_path", VString "/repo/pkg/x.go")])].

(** [n] spaces. *)
Fixpoint spaces (n : nat) : string :=
  match n with
  | O => EmptyString
  | S n' => String " " (spaces n')
  end.

(** A first chunk of exactly 1 MiB, and one more code unit. *)
Definition overlong : list string := [spaces (N.to_nat 1048576); "x"].

(** A stream whose first chunk is an edit event and whose 16 further
    chunks are 64 KiB of trailing white space each. *)
Definition padded_event : list string :=
  edit_event "/repo/pkg/x.go" :: repeat (spaces (N.to_nat 65536)) 16.

End Scenario.

(** * Properties *)

(** ** Strings *)

Lemma append_nil_r (s : string) : s ++ "" = s.
Proof. induction s as [|c s IH]; simpl; [reflexivity | now rewrite IH]. Qed.

Lemma append_assoc (a b c : string) : (a ++ b) ++ c = a ++ (b ++ c).
Proof. induction a as [|x a IH]; simpl; [reflexivity | now rewrite IH]. Qed.

Lemma length_append (a b : string) :
  String.length (a ++ b) = String.length a + String.length b.
Proof. induction a as [|x a IH]; simpl; [reflexivity | now rewrite IH]. Qed.

Lemma js_length_append (a b : string) :
  js_length (a ++ b) = (js_length a + js_length b)%N.
Proof. unfold js_length. rewrite length_append. lia. Qed.

Lemma js_length_0 (s : string) : js_length s = 0%N -> s = "".
Proof. destruct s; [reflexivity | unfold js_length; simpl; lia]. Qed.

Lemma line_not_itself (s : string) : line s <> s.
Proof.
  intros H. apply (f_equal String.length) in H.
  unfold line in H. rewrite length_append in H. simpl in H. lia.
Qed.

Lemma spaces_length (n : nat) : String.length (Scenario.spaces n) = n.
Proof. induction n as [|n IH]; simpl; [reflexivity | now rewrite IH]. Qed.

Lemma skip_ws_spaces (n : nat) (s : string) :
  Json.skip_ws (Scenario.spaces n ++ s) = Json.skip_ws s.
Proof. induction n as [|n IH]; simpl; [reflexivity | exact IH]. Qed.

(** ** The input buffer *)

Lemma format_on_data_eq : FormatHook.on_data = VetHook.on_data.
Proof.
  unfold FormatHook.on_data, VetHook.on_data,
    FormatHook.MAX_STDIN, VetHook.MAX_STDIN.
  reflexivity.
Qed.

(** Both scripts accumulate their input the same way. *)
Lemma format_read_stdin_eq (chunks : list string) :
  FormatHook.read_stdin chunks = VetHook.read_stdin chunks.
Proof.
  unfold FormatHook.read_stdin, VetHook.read_stdin.
  rewrite format_on_data_eq. reflexivity.
Qed.

Lemma on_data_below (data chunk : string) :
  (js_length data < VetHook.MAX_STDIN)%N ->
  VetHook.on_data data chunk = data ++ chunk.
Proof.
  intros H. unfold VetHook.on_data.
  apply N.ltb_lt in H. now rewrite H.
Qed.

Lemma on_data_full (data chunk : string) :
  (VetHook.MAX_STDIN <= js_length data)%N ->
  VetHook.on_data data chunk = data.
Proof.
  intros H. unfold VetHook.on_data.
  apply N.ltb_ge in H. now rewrite H.
Qed.

Lemma fold_on_data_full (chunks : list string) (data : string) :
  (VetHook.MAX_STDIN <= js_length data)%N ->
  fold_left VetHook.on_data chunks data = data.
Proof.
  induction chunks as [|c rest IH]; intros H; simpl; [reflexivity|].
  rewrite on_data_full by exact H. now apply IH.
Qed.

(** The buffer is what was there, followed by a leading run of chunks. *)
Lemma fold_on_data_prefix (chunks : list string) (data : string) :
  exists k,
    fold_left VetHook.on_data chunks data
    = data ++ concat_chunks (firstn k chunks).
Proof.
  revert data. induction chunks as [|c rest IH]; intros data.
  - exists 0. simpl. now rewrite append_nil_r.
  - simpl. destruct (N.ltb_spec (js_length data) VetHook.MAX_STDIN) as [Hlt|Hge].
    + rewrite on_data_below by exact Hlt.
      destruct (IH (data ++ c)) as [k Hk].
      exists (S k). rewrite Hk. simpl. now rewrite append_assoc.
    + rewrite on_data_full by exact Hge.
      rewrite fold_on_data_full by exact Hge.
      exists 0. simpl. now rewrite append_nil_r.
Qed.

(** Nothing is dropped from a stream that fits the cap. *)
Lemma fold_on_data_within_cap (chunks : list string) (data : string) :
  (js_length (data ++ concat_chunks chunks) <= VetHook.MAX_STDIN)%N ->
  fold_left VetHook.on_data chunks data = data ++ concat_chunks chunks.
Proof.
  revert data. induction chunks as [|c rest IH]; intros data H.
  - simpl. now rewrite append_nil_r.
  - simpl in *.
    destruct (N.ltb_spec (js_length data) VetHook.MAX_STDIN) as [Hlt|Hge].
    + rewrite on_data_below by exact Hlt.
      rewrite IH; rewrite append_assoc; [reflexivity | exact H].
    + rewrite on_data_full by exact Hge.
      rewrite !js_length_append in H.
      assert (Hc : c = "") by (apply js_length_0; lia).
      subst c. simpl. apply IH.
      rewrite js_length_append. simpl in H. lia.
Qed.

Lemma read_stdin_within_cap (chunks : list string) :
  (js_length (concat_chunks chunks) <= VetHook.MAX_STDIN)%N ->
  VetHook.read_stdin chunks = concat_chunks chunks.
Proof.
  intros H. unfold VetHook.read_stdin.
  now rewrite fold_on_data_within_cap.
Qed.

Lemma read_stdin_prefix (chunks : list string) :
  exists k, VetHook.read_stdin chunks = concat_chunks (firstn k chunks).
Proof.
  destruct (fold_on_data_prefix chunks "") as [k Hk].
  exists k. exact Hk.
Qed.

(** ** Runs of the [end] handlers *)

Import Spec.

Lemma for_each_console_error_events {number} (lines : list string) :
  for_each_console_error lines
  = (map (@ConsoleError number) lines, Normal tt).
Proof.
  induction lines as [|l ls IH]; simpl; [reflexivity|].
  unfold bind, console_error, emit. rewrite IH. reflexivity.
Qed.

Lemma logged_app {number} (t u : list (event number)) :
  logged (t ++ u) = (logged t ++ logged u)%list.
Proof.
  induction t as [|e t IH]; simpl; [reflexivity|].
  destruct e; simpl; now rewrite IH.
Qed.

Lemma logged_errors {number} (lines : list string) :
  logged (map (@ConsoleError number) lines) = [].
Proof. induction lines as [|l ls IH]; simpl; [reflexivity | exact IH]. Qed.

Lemma reported_app {number} (t u : list (event number)) :
  reported (t ++ u) = (reported t ++ reported u)%list.
Proof.
  induction t as [|e t IH]; simpl; [reflexivity|].
  destruct e; simpl; now rewrite IH.
Qed.

Lemma reported_errors {number} (lines : list string) :
  reported (map (@ConsoleError number) lines) = lines.
Proof. induction lines as [|l ls IH]; simpl; [reflexivity | now rewrite IH]. Qed.

Lemma stdout_of_logged {number} (t : list (event number)) :
  stdout_of t = fold_right (fun s out => line s ++ out) "" (logged t).
Proof.
  induction t as [|e t IH]; simpl; [reflexivity|].
  destruct e; simpl; now rewrite IH.
Qed.

Lemma In_errors_inv {number} (e : event number) (lines : list string) :
  In e (map (@ConsoleError number) lines) -> exists s, e = ConsoleError s.
Proof.
  intros H. apply in_map_iff in H. destruct H as [s [Hs _]].
  exists s. now symmetry.
Qed.

Lemma regexp_go_test_empty : regexp_go_test "" = false.
Proof. reflexivity. Qed.

(** One case split per test the handlers make. *)
Ltac run_step :=
  match goal with
  | |- context [JSON_parse ?n ?d] => destruct (JSON_parse n d) eqn:?
  | |- context [own_property ?p ?k] => destruct (own_property p k) eqn:?
  | |- context [child_process_execFileSync ?n ?f ?a ?c] =>
      destruct (child_process_execFileSync n f a c) eqn:?
  | |- context [to_string ?n ?v] => destruct (to_string n v) eqn:?
  | |- context [if ?b then _ else _] => destruct b eqn:?
  | |- context [match ?v with VUndefined => _ | _ => _ end] => destruct v
  end.

Ltac run :=
  unfold VetHook.run, FormatHook.run, VetHook.on_end, FormatHook.on_end,
    VetHook.report, json_parse, get_optional, get, truthy_and_go_test,
    path_argument, execFileSync, console_log, console_error, emit, ret,
    throw, return_;
  repeat (cbn [bind try_catch call fst snd app];
          try rewrite for_each_console_error_events;
          try run_step).

(** The vet hook ends with its one [console.log(data)], and completes. *)
Lemma vet_on_end_shape {number} (node : Node number) (data : string) :
  exists pre,
    VetHook.on_end node data = ((pre ++ [ConsoleLog data])%list, Normal tt)
    /\ logged pre = [].
Proof.
  run.
  all: try (exists []; split; reflexivity).
  - eexists [_]. split; reflexivity.
  - eexists (_ :: _ :: map _ _). split.
    + cbn [app]. reflexivity.
    + cbn [logged]. apply logged_errors.
  - eexists [_]. split; reflexivity.
Qed.

(** So does the format hook. *)
Lemma format_on_end_shape {number} (node : Node number) (data : string) :
  exists pre,
    FormatHook.on_end node data = ((pre ++ [ConsoleLog data])%list, Normal tt)
    /\ logged pre = [].
Proof.
  run.
  all: try (exists []; split; reflexivity).
  all: eexists [_]; split; reflexivity.
Qed.

Lemma vet_on_end_logged {number} (node : Node number) (data : string) :
  logged (fst (VetHook.on_end node data)) = [data].
Proof.
  destruct (vet_on_end_shape node data) as [pre [H Hpre]].
  rewrite H. cbn [fst]. rewrite logged_app, Hpre. reflexivity.
Qed.

Lemma format_on_end_logged {number} (node : Node number) (data : string) :
  logged (fst (FormatHook.on_end node data)) = [data].
Proof.
  destruct (format_on_end_shape node data) as [pre [H Hpre]].
  rewrite H. cbn [fst]. rewrite logged_app, Hpre. reflexivity.
Qed.

Lemma vet_on_end_stdout {number} (node : Node number) (data : string) :
  stdout_of (fst (VetHook.on_end node data)) = line data.
Proof.
  rewrite stdout_of_logged, vet_on_end_logged. simpl.
  apply append_nil_r.
Qed.

Lemma format_on_end_stdout {number} (node : Node number) (data : string) :
  stdout_of (fst (FormatHook.on_end node data)) = line data.
Proof.
  rewrite stdout_of_logged, format_on_end_logged. simpl.
  apply append_nil_r.
Qed.

Lemma passthrough_intro {number} (data : string) :
  passthrough data (([ConsoleLog data], Normal tt) : js number unit).
Proof.
  unfold passthrough. cbn [fst]. repeat split.
  simpl. apply append_nil_r.
Qed.

(** *** C9 *)

(** C9.  On every path of the vet hook, the early return for a file that
    is not on disk included, [console.log] is called exactly once, with
    the accumulated input. *)
Theorem vet_logs_exactly_once {number} (node : Node number)
  (chunks : list string) :
  logged (fst (VetHook.run node chunks)) = [VetHook.read_stdin chunks].
Proof. apply vet_on_end_logged. Qed.

(** *** C10 *)

(** C10.  For every input, what each hook emits on standard output is
    the accumulated input followed by exactly one line feed; the
    accumulated input is a leading run of the chunks received. *)
Theorem stdout_is_buffer_line {number} (node : Node number)
  (chunks : list string) :
  stdout_of (fst (VetHook.run node chunks))
  = VetHook.read_stdin chunks ++ String LF ""
  /\ stdout_of (fst (FormatHook.run node chunks))
     = FormatHook.read_stdin chunks ++ String LF ""
  /\ exists k,
       VetHook.read_stdin chunks = concat_chunks (firstn k chunks)
       /\ FormatHook.read_stdin chunks = concat_chunks (firstn k chunks).
Proof.
  split; [apply vet_on_end_stdout|].
  split; [apply format_on_end_stdout|].
  destruct (read_stdin_prefix chunks) as [k Hk].
  exists k. split; [exact Hk|].
  rewrite (format_read_stdin_eq chunks). exact Hk.
Qed.

(** *** C1 *)

(** C1, as stated, fails: the write is a [console.log], so standard
    output holds one line feed more than the input; and a chunk that
    arrives once the buffer is full never reaches the write. *)
Lemma stdout_not_exactly_input :
  stdout_of (fst (VetHook.run (Host.node Scenario.repo) Scenario.go_event))
  <> concat_chunks Scenario.go_event
  /\ stdout_of (fst (FormatHook.run (Host.node Scenario.repo) Scenario.go_event))
     <> concat_chunks Scenario.go_event
  /\ logged (fst (VetHook.run (Host.node Scenario.repo) Scenario.overlong))
     <> [concat_chunks Scenario.overlong].
Proof.
  split; [vm_compute; discriminate|].
  split; [vm_compute; discriminate|].
  unfold VetHook.run. rewrite vet_on_end_logged.
  unfold VetHook.read_stdin, Scenario.overlong.
  remember (N.to_nat 1048576) as n eqn:Hn.
  assert (Hlen : js_length (Scenario.spaces n) = 1048576%N).
  { unfold js_length. rewrite spaces_length, Hn. apply N2Nat.id. }
  cbn [fold_left concat_chunks fold_right].
  rewrite (on_data_below "") by (unfold js_length, VetHook.MAX_STDIN; simpl; lia).
  cbn [append].
  rewrite on_data_full by (rewrite Hlen; unfold VetHook.MAX_STDIN; lia).
  intros H. injection H as H.
  apply (f_equal js_length) in H.
  rewrite js_length_append, Hlen in H.
  unfold js_length in H. simpl in H. lia.
Qed.

(** C1, amended.  For every stream that fits the cap and on every path,
    the single write of each hook is the original input, and standard
    output is the original input followed by one line feed. *)
Theorem stdout_is_input_line_within_cap {number} (node : Node number)
  (chunks : list string) :
  (js_length (concat_chunks chunks) <= 1024 * 1024)%N ->
  logged (fst (VetHook.run node chunks)) = [concat_chunks chunks]
  /\ stdout_of (fst (VetHook.run node chunks))
     = concat_chunks chunks ++ String LF ""
  /\ logged (fst (FormatHook.run node chunks)) = [concat_chunks chunks]
  /\ stdout_of (fst (FormatHook.run node chunks))
     = concat_chunks chunks ++ String LF "".
Proof.
  intros H. unfold VetHook.run, FormatHook.run.
  rewrite !(format_read_stdin_eq chunks).
  rewrite (read_stdin_within_cap chunks H).
  split; [apply vet_on_end_logged|].
  split; [apply vet_on_end_stdout|].
  split; [apply format_on_end_logged | apply format_on_end_stdout].
Qed.

Lemma stdout_is_input_line_within_cap_witness :
  (js_length (concat_chunks Scenario.go_event) <= 1024 * 1024)%N
  /\ stdout_of (fst (VetHook.run (Host.node Scenario.repo) Scenario.go_event))
     = concat_chunks Scenario.go_event ++ String LF "".
Proof.
  split; [vm_compute; discriminate|].
  apply (stdout_is_input_line_within_cap (Host.node Scenario.repo)
           Scenario.go_event).
  vm_compute; discriminate.
Defined.

(** *** C2 *)

(** C2, as stated, fails on the output: for a stream that does not
    parse, standard output is not exactly the bytes received. *)
Lemma invalid_json_stdout_not_input :
  JSON_parse (Host.node Scenario.repo) (concat_chunks Scenario.not_json) = None
  /\ stdout_of (fst (VetHook.run (Host.node Scenario.repo) Scenario.not_json))
     <> concat_chunks Scenario.not_json
  /\ stdout_of (fst (FormatHook.run (Host.node Scenario.repo) Scenario.not_json))
     <> concat_chunks Scenario.not_json.
Proof.
  split; [vm_compute; reflexivity|].
  split; vm_compute; discriminate.
Qed.

(** C2, amended.  When the accumulated input does not parse as JSON,
    both hooks only echo it: the one call is [console.log] of the
    buffer, the exit code is 0, standard output is the buffer and one
    line feed, nothing goes to standard error and nothing is spawned. *)
Theorem invalid_json_passthrough {number} (node : Node number)
  (chunks : list string) :
  JSON_parse node (VetHook.read_stdin chunks) = None ->
  passthrough (VetHook.read_stdin chunks) (VetHook.run node chunks)
  /\ passthrough (FormatHook.read_stdin chunks) (FormatHook.run node chunks).
Proof.
  intros H. unfold VetHook.run, FormatHook.run.
  rewrite !(format_read_stdin_eq chunks).
  unfold VetHook.on_end, FormatHook.on_end, json_parse.
  rewrite H. split; apply passthrough_intro.
Qed.

Lemma invalid_json_passthrough_witness :
  JSON_parse (Host.node Scenario.repo)
    (VetHook.read_stdin Scenario.not_json) = None
  /\ passthrough "not json"
       (VetHook.run (Host.node Scenario.repo) Scenario.not_json)
  /\ passthrough "not json"
       (FormatHook.run (Host.node Scenario.repo) Scenario.not_json).
Proof.
  split; [vm_compute; reflexivity|].
  apply (invalid_json_passthrough (Host.node Scenario.repo) Scenario.not_json).
  vm_compute; reflexivity.
Defined.

(** *** C6 *)

(** C6, as stated, fails on the output: on a valid event for a file
    that is not a Go source nothing is spawned, but what each hook
    emits is not the input itself. *)
Lemma no_go_path_stdout_not_input :
  JSON_parse (Host.node Scenario.repo) (concat_chunks Scenario.readme_event)
  = Some (VObject [("tool_input",
                    VObject [("file_path", VString "/repo/README.md")])])
  /\ regexp_go_test "/repo/README.md" = false
  /\ spawned (fst (VetHook.run (Host.node Scenario.repo)
                     Scenario.readme_event)) = []
  /\ stdout_of (fst (VetHook.run (Host.node Scenario.repo)
                       Scenario.readme_event))
     <> concat_chunks Scenario.readme_event
  /\ stdout_of (fst (FormatHook.run (Host.node Scenario.repo)
                       Scenario.readme_event))
     <> concat_chunks Scenario.readme_event.
Proof.
  split; [vm_compute; reflexivity|].
  split; [vm_compute; reflexivity|].
  split; [vm_compute; reflexivity|].
  split; vm_compute; discriminate.
Qed.

(** What the condition of both handlers gives on a value that is falsy,
    has no string form, or has one that does not end in [.go]. *)
Lemma truthy_and_go_test_skips {number} (node : Node number)
  (fp : value number) :
  truthy node fp = false
  \/ to_string node fp = None
  \/ (exists s, to_string node fp = Some s /\ regexp_go_test s = false) ->
  truthy_and_go_test node fp = ret false
  \/ truthy_and_go_test node fp = throw TypeError.
Proof.
  unfold truthy_and_go_test.
  intros [H | [H | [s [H Hs]]]].
  - rewrite H. left. reflexivity.
  - rewrite H. destruct (truthy node fp); [right | left]; reflexivity.
  - rewrite H, Hs. destruct (truthy node fp); left; reflexivity.
Qed.

(** C6, amended.  For a valid JSON input whose file-path field is
    absent, or present with a value that is falsy, or that has no
    string form, or whose string form does not end in [.go] (a string
    such as a README path, a number, an array of such), both hooks
    spawn nothing and only echo: the one call is [console.log] of the
    accumulated input, so standard output is the accumulated input
    followed by one line feed. *)
Theorem no_go_path_passthrough {number} (node : Node number)
  (chunks : list string) (input : value number) :
  JSON_parse node (VetHook.read_stdin chunks) = Some input ->
  event_file_path input = None
  \/ (exists fp,
        event_file_path input = Some fp
        /\ (truthy node fp = false
            \/ to_string node fp = None
            \/ exists s, to_string node fp = Some s
                         /\ regexp_go_test s = false)) ->
  passthrough (VetHook.read_stdin chunks) (VetHook.run node chunks)
  /\ passthrough (FormatHook.read_stdin chunks) (FormatHook.run node chunks).
Proof.
  intros Hparse Hpath. unfold VetHook.run, FormatHook.run.
  rewrite !(format_read_stdin_eq chunks).
  assert (Hskip :
    forall fp, event_file_path input = Some fp ->
      truthy_and_go_test node fp = ret false
      \/ truthy_and_go_test node fp = throw TypeError).
  { intros fp Hfp. destruct Hpath as [Hnone | [fp' [Hfp' Hwhy]]].
    - congruence.
    - rewrite Hfp' in Hfp. injection Hfp as <-.
      apply truthy_and_go_test_skips. exact Hwhy. }
  unfold event_file_path in Hskip.
  unfold VetHook.on_end, FormatHook.on_end, json_parse. rewrite Hparse.
  destruct input as [| | | | |elems|props];
    try (split; apply passthrough_intro).
  cbn [bind get ret].
  destruct (own_property props "tool_input") as [tool_input|];
    [|split; apply passthrough_intro].
  destruct tool_input as [| | | | |elems'|props'];
    try (split; apply passthrough_intro).
  cbn [bind get get_optional ret app].
  destruct (own_property props' "file_path") as [fp|];
    [|split; apply passthrough_intro].
  cbn [bind ret app].
  destruct (Hskip fp eq_refl) as [H|H]; rewrite H;
    split; apply passthrough_intro.
Qed.

Lemma no_go_path_passthrough_witness :
  (passthrough (VetHook.read_stdin Scenario.readme_event)
     (VetHook.run (Host.node Scenario.repo) Scenario.readme_event)
   /\ passthrough (FormatHook.read_stdin Scenario.readme_event)
        (FormatHook.run (Host.node Scenario.repo) Scenario.readme_event))
  /\ (passthrough (VetHook.read_stdin Scenario.readme_array_event)
        (VetHook.run (Host.node Scenario.repo) Scenario.readme_array_event)
      /\ passthrough (FormatHook.read_stdin Scenario.readme_array_event)
           (FormatHook.run (Host.node Scenario.repo)
              Scenario.readme_array_event)).
Proof.
  split.
  - apply (no_go_path_passthrough (Host.node Scenario.repo)
             Scenario.readme_event
             (VObject [("tool_input",
                        VObject [("file_path", VString "/repo/README.md")])])).
    + vm_compute; reflexivity.
    + right. exists (VString "/repo/README.md"). split; [reflexivity|].
      right. right. exists "/repo/README.md". split; vm_compute; reflexivity.
  - apply (no_go_path_passthrough (Host.node Scenario.repo)
             Scenario.readme_array_event
             (VObject [("tool_input",
                        VObject [("file_path",
                                  VArray [VString "README.md"])])])).
    + vm_compute; reflexivity.
    + right. exists (VArray [VString "README.md"]). split; [reflexivity|].
      right. right. exists "README.md". split; vm_compute; reflexivity.
Defined.

(** *** The paths through the handlers *)

Lemma bind_ret_l {number A B} (x : A) (k : A -> js number B) :
  bind (ret x) k = k x.
Proof. unfold bind, ret. destruct (k x). reflexivity. Qed.

Lemma event_file_path_inv {number} (input fp : value number) :
  event_file_path input = Some fp ->
  exists props props',
    input = VObject props
    /\ own_property props "tool_input" = Some (VObject props')
    /\ own_property props' "file_path" = Some fp.
Proof.
  unfold event_file_path. intros H.
  destruct input as [| | | | | |props]; try discriminate.
  destruct (own_property props "tool_input") as [[| | | | | |props']|] eqn:Ht;
    try discriminate.
  exists props, props'. repeat split; assumption.
Qed.

(** The first three statements of both handlers, on an event that has
    the field. *)
Lemma read_file_path {number A} (node : Node number) (data : string)
  (input fp : value number) (k : value number -> js number A) :
  JSON_parse node data = Some input ->
  event_file_path input = Some fp ->
  (input' <- json_parse node data ;;
   tool_input <- get input' "tool_input" ;;
   filePath <- get_optional tool_input "file_path" ;;
   k filePath) = k fp.
Proof.
  intros Hparse Hfp.
  destruct (event_file_path_inv _ _ Hfp) as [props [props' [-> [Ht Hf]]]].
  unfold json_parse. rewrite Hparse, bind_ret_l.
  cbn [get]. rewrite Ht, bind_ret_l.
  cbn [get_optional get]. rewrite Hf, bind_ret_l. reflexivity.
Qed.

Lemma report_events {number} (node : Node number) (p : string) (err : error) :
  VetHook.report node p err
  = (map (@ConsoleError number) (report_lines node p err), Normal tt).
Proof.
  unfold VetHook.report, report_lines, combined_output.
  change (fun line0 : string =>
            includes line0 p || includes line0 (path_basename node p))
    with (mentions node p).
  destruct (filter (mentions node p)
              (split_lines (or_empty (err_stdout err) ++ or_empty (err_stderr err))))
    as [|l ls]; [reflexivity|].
  cbn [firstn length Nat.ltb Nat.leb].
  unfold console_error, emit. cbn [bind].
  rewrite for_each_console_error_events. reflexivity.
Qed.

Lemma go_path_truthy {number} (node : Node number) (p : string) :
  regexp_go_test p = true ->
  truthy_and_go_test node (VString p) = ret true.
Proof.
  intros H. unfold truthy_and_go_test. cbn [truthy to_string]. rewrite H.
  destruct p; [discriminate H | reflexivity].
Qed.

(** The vet hook on an event for a Go file that is on disk. *)
Lemma vet_on_end_go_file {number} (node : Node number) (data : string)
  (input : value number) (p : string) :
  JSON_parse node data = Some input ->
  event_file_path input = Some (VString p) ->
  regexp_go_test p = true ->
  fs_existsSync node (path_resolve node p) = true ->
  let dir :=
    VetHook.walk node (path_parse_root node (start_dir node p))
      (start_dir node p) 0 in
  VetHook.on_end node data
  = if has_marker node dir then
      ((go_vet dir :: map (@ConsoleError number) (analysis_lines node p dir)
          ++ [ConsoleLog data])%list, Normal tt)
    else ([ConsoleLog data], Normal tt).
Proof.
  intros Hparse Hfp Hgo Hfile dir.
  unfold VetHook.on_end.
  rewrite (read_file_path node data input (VString p) _ Hparse Hfp).
  rewrite (go_path_truthy node p Hgo), bind_ret_l.
  cbn [path_argument]. rewrite bind_ret_l, Hfile. cbn [negb].
  fold (start_dir node p). fold dir. fold (has_marker node dir).
  destruct (has_marker node dir); [|reflexivity].
  unfold analysis_lines, execFileSync, go_vet, emit.
  destruct (child_process_execFileSync node "go"
              [VString "vet"; VString "./..."] (Some dir)) as [|err].
  - reflexivity.
  - cbn [bind try_catch ret throw app]. rewrite report_events. reflexivity.
Qed.

(** Every run of the vet hook either only echoes, or is the analysis of
    a Go file from the directory the walk stopped at, a marker there. *)
Lemma vet_on_end_cases {number} (node : Node number) (data : string) :
  VetHook.on_end node data = ([ConsoleLog data], Normal tt)
  \/ exists input p,
       JSON_parse node data = Some input
       /\ event_file_path input = Some (VString p)
       /\ regexp_go_test p = true
       /\ fs_existsSync node (path_resolve node p) = true
       /\ has_marker node
            (VetHook.walk node (path_parse_root node (start_dir node p))
               (start_dir node p) 0) = true.
Proof.
  run.
  all: try (left; reflexivity).
  all: right.
  all: match goal with
       | Hp : own_property ?props "tool_input" = Some (VObject ?props'),
         Hf : own_property ?props' "file_path" = Some (VString ?s),
         Ht : to_string _ (VString ?s) = Some ?s0,
         Hc : regexp_go_test ?s0 = true,
         He : negb _ = false,
         Hm : fs_existsSync _ (path_join _ _ _) = true |- _ =>
           exists (VObject props), s;
           cbn [to_string] in Ht; injection Ht as <-;
           apply negb_false_iff in He;
           repeat split;
           [ unfold event_file_path; rewrite Hp; exact Hf
           | exact Hc | exact He | exact Hm ]
       end.
Qed.

(** Every run of the format hook either only echoes, or is one
    formatter invocation followed by the echo; what the invocation does
    makes no difference. *)
Lemma format_on_end_cases {number} (node : Node number) (data : string) :
  FormatHook.on_end node data = ([ConsoleLog data], Normal tt)
  \/ exists fp,
       FormatHook.on_end node data
       = ([goimports fp; ConsoleLog data], Normal tt).
Proof.
  run.
  all: try (left; reflexivity).
  all: right; eexists; reflexivity.
Qed.

Lemma stderr_of_reported {number} (t : list (event number)) :
  reported t = [] -> stderr_of t = "".
Proof.
  induction t as [|e t IH]; simpl; [reflexivity|].
  destruct e; simpl; try exact IH. discriminate.
Qed.

(** The run of the vet hook when it contains an analysis. *)
Lemma vet_run_with_analysis {number} (node : Node number) (data dir : string) :
  In (go_vet dir) (fst (VetHook.on_end node data)) ->
  exists input p,
    JSON_parse node data = Some input
    /\ event_file_path input = Some (VString p)
    /\ VetHook.on_end node data
       = ((go_vet dir :: map (@ConsoleError number) (analysis_lines node p dir)
             ++ [ConsoleLog data])%list, Normal tt).
Proof.
  intros Hin.
  destruct (vet_on_end_cases node data)
    as [H | (input & p & Hparse & Hfp & Hgo & Hfile & Hm)].
  - rewrite H in Hin. destruct Hin as [Heq|[]]. discriminate Heq.
  - pose proof (vet_on_end_go_file node data input p Hparse Hfp Hgo Hfile)
      as E.
    cbv zeta in E. rewrite Hm in E.
    exists input, p. split; [exact Hparse|]. split; [exact Hfp|].
    rewrite E in Hin. cbn [fst] in Hin.
    destruct Hin as [Heq|Hin].
    + injection Heq as <-. exact E.
    + apply in_app_or in Hin. destruct Hin as [Hin|[Heq|[]]].
      * apply In_errors_inv in Hin. destruct Hin as [s Hs]. discriminate Hs.
      * discriminate Heq.
Qed.

(** *** C7 *)

(** C7, as stated, fails on the output: the analysis exits with code 0
    and standard output is not exactly the input. *)
Lemma vet_ok_stdout_not_input :
  In (go_vet "/repo")
    (fst (VetHook.run (Host.node Scenario.repo) Scenario.go_event))
  /\ child_process_execFileSync (Host.node Scenario.repo) "go"
       [VString "vet"; VString "./..."] (Some "/repo") = Exited0
  /\ stderr_of (fst (VetHook.run (Host.node Scenario.repo) Scenario.go_event))
     = ""
  /\ stdout_of (fst (VetHook.run (Host.node Scenario.repo) Scenario.go_event))
     <> concat_chunks Scenario.go_event.
Proof.
  split; [vm_compute; left; reflexivity|].
  split; [reflexivity|].
  split; [vm_compute; reflexivity|].
  vm_compute; discriminate.
Qed.

(** C7, amended.  When the analysis subprocess exits with code 0, the
    vet hook writes nothing to standard error, and standard output is
    the accumulated input followed by one line feed. *)
Theorem vet_ok_silent {number} (node : Node number) (chunks : list string)
  (dir : string) :
  In (go_vet dir) (fst (VetHook.run node chunks)) ->
  child_process_execFileSync node "go" [VString "vet"; VString "./..."]
    (Some dir) = Exited0 ->
  stderr_of (fst (VetHook.run node chunks)) = ""
  /\ stdout_of (fst (VetHook.run node chunks))
     = VetHook.read_stdin chunks ++ String LF ""
  /\ fst (VetHook.run node chunks)
     = [go_vet dir; ConsoleLog (VetHook.read_stdin chunks)]
  /\ exit_code (VetHook.run node chunks) = 0%N.
Proof.
  unfold VetHook.run. intros Hin Hok.
  destruct (vet_run_with_analysis node _ dir Hin) as (input & p & _ & _ & E).
  unfold analysis_lines in E. rewrite Hok in E. cbn [map app] in E.
  split; [rewrite E; reflexivity|].
  split; [apply vet_on_end_stdout|].
  split; rewrite E; reflexivity.
Qed.

Lemma vet_ok_silent_witness :
  In (go_vet "/repo")
    (fst (VetHook.run (Host.node Scenario.repo) Scenario.go_event))
  /\ stderr_of (fst (VetHook.run (Host.node Scenario.repo) Scenario.go_event))
     = "".
Proof.
  split; [vm_compute; left; reflexivity|].
  apply (vet_ok_silent (Host.node Scenario.repo) Scenario.go_event "/repo").
  - vm_compute. left. reflexivity.
  - reflexivity.
Defined.

(** *** C8 *)

(** C8, as stated, fails on the output: the formatter is not installed
    and what the format hook emits is not exactly the input. *)
Lemma format_failure_stdout_not_input :
  In (goimports (VString "/repo/pkg/x.go"))
    (fst (FormatHook.run (Host.node Scenario.repo_without_tools)
            Scenario.go_event))
  /\ child_process_execFileSync (Host.node Scenario.repo_without_tools)
       "goimports" [VString "-w"; VString "/repo/pkg/x.go"] None
     = ExecThrows (Error None None)
  /\ stdout_of (fst (FormatHook.run (Host.node Scenario.repo_without_tools)
                       Scenario.go_event))
     <> concat_chunks Scenario.go_event.
Proof.
  split; [vm_compute; left; reflexivity|].
  split; [reflexivity|].
  vm_compute; discriminate.
Qed.

(** C8, amended.  Whatever the failure of the formatter invocation, the
    format hook discards it: nothing is reported, the exit code is 0,
    and standard output is the accumulated input followed by one line
    feed. *)
Theorem format_failure_absorbed {number} (node : Node number)
  (chunks : list string) (file : string) (args : list (value number))
  (cwd : option string) (err : error) :
  In (ExecFileSync file args cwd) (fst (FormatHook.run node chunks)) ->
  child_process_execFileSync node file args cwd = ExecThrows err ->
  fst (FormatHook.run node chunks)
  = [ExecFileSync file args cwd; ConsoleLog (FormatHook.read_stdin chunks)]
  /\ stderr_of (fst (FormatHook.run node chunks)) = ""
  /\ exit_code (FormatHook.run node chunks) = 0%N
  /\ stdout_of (fst (FormatHook.run node chunks))
     = FormatHook.read_stdin chunks ++ String LF "".
Proof.
  unfold FormatHook.run. intros Hin _.
  destruct (format_on_end_cases node (FormatHook.read_stdin chunks))
    as [H | [fp H]]; rewrite H in Hin |- *; cbn [fst] in Hin.
  - destruct Hin as [Heq|[]]. discriminate Heq.
  - destruct Hin as [Heq|[Heq|[]]]; [|discriminate Heq].
    rewrite <- Heq. unfold goimports.
    repeat split. simpl. apply append_nil_r.
Qed.

Lemma format_failure_absorbed_witness :
  child_process_execFileSync (Host.node Scenario.repo_without_tools)
    "goimports" [VString "-w"; VString "/repo/pkg/x.go"] None
  = ExecThrows (Error None None)
  /\ fst (FormatHook.run (Host.node Scenario.repo_without_tools)
            Scenario.go_event)
     = [goimports (VString "/repo/pkg/x.go");
        ConsoleLog (FormatHook.read_stdin Scenario.go_event)]
  /\ stderr_of (fst (FormatHook.run (Host.node Scenario.repo_without_tools)
                       Scenario.go_event)) = ""
  /\ exit_code (FormatHook.run (Host.node Scenario.repo_without_tools)
                  Scenario.go_event) = 0%N
  /\ stdout_of (fst (FormatHook.run (Host.node Scenario.repo_without_tools)
                       Scenario.go_event))
     = FormatHook.read_stdin Scenario.go_event ++ String LF "".
Proof.
  split; [reflexivity|].
  apply (format_failure_absorbed (Host.node Scenario.repo_without_tools)
           Scenario.go_event "goimports"
           [VString "-w"; VString "/repo/pkg/x.go"] None (Error None None)).
  - vm_compute. left. reflexivity.
  - reflexivity.
Defined.

(** *** C4 *)

Lemma reported_analysis {number} (dir data : string) (lines : list string) :
  reported ((go_vet dir :: map (@ConsoleError number) lines
               ++ [ConsoleLog data])%list)
  = lines.
Proof.
  cbn [go_vet reported]. rewrite reported_app, reported_errors.
  cbn [reported]. apply app_nil_r.
Qed.

(** C4.  When the analysis subprocess fails, the report on standard
    error is made of the lines of the combined output that contain the
    edited file's path or its base name, cut to the first 10 of them and
    in their order, after the banner; there is no report when no line
    matches.  With 15 lines of which 12 match, exactly the first 10 of
    the 12 are printed. *)
Theorem report_first_ten_mentions {number} (node : Node number)
  (chunks : list string) (input : value number) (p dir : string)
  (err : error) :
  JSON_parse node (VetHook.read_stdin chunks) = Some input ->
  event_file_path input = Some (VString p) ->
  In (go_vet dir) (fst (VetHook.run node chunks)) ->
  child_process_execFileSync node "go" [VString "vet"; VString "./..."]
    (Some dir) = ExecThrows err ->
  let matching :=
    filter (mentions node p) (split_lines (combined_output err)) in
  reported (fst (VetHook.run node chunks))
  = match matching with
    | [] => []
    | _ => banner node p :: firstn 10 matching
    end
  /\ (length (split_lines (combined_output err)) = 15 ->
      length matching = 12 ->
      reported (fst (VetHook.run node chunks))
      = banner node p :: firstn 10 matching
      /\ length (firstn 10 matching) = 10).
Proof.
  intros Hparse Hfp Hin Hfail matching. unfold VetHook.run in *.
  destruct (vet_run_with_analysis node _ dir Hin)
    as (input' & p' & Hparse' & Hfp' & E).
  rewrite Hparse in Hparse'. injection Hparse' as <-.
  rewrite Hfp in Hfp'. injection Hfp' as <-.
  unfold analysis_lines in E. rewrite Hfail in E.
  assert (R : reported (fst (VetHook.on_end node (VetHook.read_stdin chunks)))
              = report_lines node p err).
  { rewrite E. cbn [fst]. apply reported_analysis. }
  unfold report_lines in R. fold matching in R. rewrite R.
  split; [destruct matching; reflexivity|].
  intros _ H12.
  split; [destruct matching; [discriminate H12 | reflexivity]|].
  rewrite length_firstn, H12. reflexivity.
Qed.

Lemma report_first_ten_mentions_witness :
  length (filter (mentions (Host.node Scenario.repo_vet_fails) "/repo/pkg/x.go")
            Scenario.vet_output) = 12
  /\ reported (fst (VetHook.run (Host.node Scenario.repo_vet_fails)
                      Scenario.go_event))
     = ["[Hook] Go vet errors in x.go:";
        "pkg/x.go:1:1: first";
        "pkg/x.go:2:1: second";
        "pkg/x.go:4:1: third";
        "x.go:5:1: fourth";
        "x.go:6:1: fifth";
        "x.go:7:1: sixth";
        "x.go:9:1: seventh";
        "x.go:10:1: eighth";
        "x.go:11:1: ninth";
        "x.go:12:1: tenth"].
Proof.
  split; [vm_compute; reflexivity|].
  assert (Hparse :
    JSON_parse (Host.node Scenario.repo_vet_fails)
      (VetHook.read_stdin Scenario.go_event)
    = Some Scenario.go_event_value) by (vm_compute; reflexivity).
  assert (Hfp :
    event_file_path Scenario.go_event_value
    = Some (VString "/repo/pkg/x.go")) by reflexivity.
  assert (Hin :
    In (go_vet "/repo")
      (fst (VetHook.run (Host.node Scenario.repo_vet_fails)
              Scenario.go_event))) by (vm_compute; left; reflexivity).
  assert (Hfail :
    child_process_execFileSync (Host.node Scenario.repo_vet_fails) "go"
      [VString "vet"; VString "./..."] (Some "/repo")
    = ExecThrows
        (Error (Some "")
           (Some (String.concat (String LF "") Scenario.vet_output))))
    by reflexivity.
  pose proof (report_first_ten_mentions (Host.node Scenario.repo_vet_fails)
                Scenario.go_event Scenario.go_event_value "/repo/pkg/x.go"
                "/repo" _ Hparse Hfp Hin Hfail) as W.
  cbv zeta in W. destruct W as [_ W].
  assert (H15 : length (split_lines (combined_output
             (Error (Some "")
                (Some (String.concat (String LF "") Scenario.vet_output)))))
           = 15) by (vm_compute; reflexivity).
  destruct (W H15) as [R _]; [vm_compute; reflexivity|].
  rewrite R. vm_compute. reflexivity.
Defined.

(** *** C3 *)

Lemma walk_step {number} (node : Node number) (root dir : string)
  (depth : nat) :
  VetHook.walk node root dir depth
  = if negb (String.eqb dir root) && (depth <? 20)%nat then
      if has_marker node dir then dir
      else VetHook.walk node root (path_dirname node dir) (S depth)
    else dir.
Proof.
  unfold has_marker.
  funelim (VetHook.walk node root dir depth);
    match goal with Hc : _ && _ = _ |- _ => rewrite Hc end; reflexivity.
Qed.

Lemma ancestor_succ {number} (node : Node number) (dir : string) (k : nat) :
  ancestor node dir (S k) = ancestor node (path_dirname node dir) k.
Proof. unfold ancestor. apply Nat.iter_succ_r. Qed.

(** The walk stops at the nearest marker when that is few enough levels
    up and not above the root. *)
Lemma walk_finds_nearest {number} (node : Node number) (root : string)
  (d : nat) :
  forall dir depth,
    depth + d <= 20 ->
    (forall j, j < d ->
       ancestor node dir j <> root
       /\ has_marker node (ancestor node dir j) = false) ->
    has_marker node (ancestor node dir d) = true ->
    VetHook.walk node root dir depth = ancestor node dir d.
Proof.
  induction d as [|d IH]; intros dir depth Hdepth Hbelow Hmarker.
  - change (ancestor node dir 0) with dir in Hmarker.
    rewrite walk_step, Hmarker.
    destruct (negb (dir =? root) && (depth <? 20)%nat); reflexivity.
  - destruct (Hbelow 0 ltac:(lia)) as [Hroot Hnone].
    change (ancestor node dir 0) with dir in Hroot, Hnone.
    rewrite walk_step, Hnone.
    apply String.eqb_neq in Hroot. rewrite Hroot.
    assert (Hlt : (depth <? 20)%nat = true) by (apply Nat.ltb_lt; lia).
    rewrite Hlt. cbn [negb andb].
    rewrite ancestor_succ. apply IH.
    + lia.
    + intros j Hj. rewrite <- !ancestor_succ. apply Hbelow. lia.
    + rewrite <- ancestor_succ. exact Hmarker.
Qed.

(** The walk stops at a directory without a marker when there is none
    within reach: none up to the root, none within the levels left. *)
Lemma walk_finds_nothing {number} (node : Node number) (root : string)
  (n : nat) :
  forall dir depth,
    depth + n = 20 ->
    (forall j, j <= n ->
       (forall i, i < j -> ancestor node dir i <> root) ->
       has_marker node (ancestor node dir j) = false) ->
    has_marker node (VetHook.walk node root dir depth) = false.
Proof.
  induction n as [|n IH]; intros dir depth Hdepth Hnone.
  - rewrite walk_step.
    assert (Hge : (depth <? 20)%nat = false) by (apply Nat.ltb_ge; lia).
    rewrite Hge, andb_false_r.
    apply (Hnone 0); [lia | intros i Hi; lia].
  - assert (H0 : has_marker node dir = false).
    { apply (Hnone 0); [lia | intros i Hi; lia]. }
    rewrite walk_step, H0.
    destruct (negb (dir =? root) && (depth <? 20)%nat) eqn:Hc; [|exact H0].
    apply andb_prop in Hc. destruct Hc as [Hroot _].
    apply negb_true_iff, String.eqb_neq in Hroot.
    apply IH; [lia|].
    intros j Hj Habove. rewrite <- ancestor_succ. apply Hnone; [lia|].
    intros [|i] Hi; [exact Hroot|].
    rewrite ancestor_succ. apply Habove. lia.
Qed.

Lemma spawned_analysis {number} (dir data : string) (lines : list string) :
  spawned ((go_vet dir :: map (@ConsoleError number) lines
              ++ [ConsoleLog data])%list)
  = [go_vet dir].
Proof.
  unfold spawned. cbn [go_vet filter is_spawn]. f_equal.
  induction lines as [|l ls IH]; [reflexivity | exact IH].
Qed.

(** C3, as stated, fails at depth 20: no marker at depths 0 to 19, one
    at depth 20, and the analysis runs there. *)
Lemma marker_at_depth_20_is_found :
  forallb
    (fun j =>
       negb (has_marker (Host.node Scenario.deep)
               (ancestor (Host.node Scenario.deep)
                  (start_dir (Host.node Scenario.deep) Scenario.deep_file) j)))
    (seq 0 20) = true
  /\ ancestor (Host.node Scenario.deep)
       (start_dir (Host.node Scenario.deep) Scenario.deep_file) 20 = "/m"
  /\ has_marker (Host.node Scenario.deep) "/m" = true
  /\ fst (VetHook.run (Host.node Scenario.deep) Scenario.deep_event)
     = [go_vet "/m"; ConsoleLog (concat_chunks Scenario.deep_event)].
Proof. repeat split; vm_compute; reflexivity. Qed.

(** C3, amended.  For an edit of a Go file that is on disk, the walk
    from the file's directory locates the nearest marker whenever it is
    0 to 20 levels up and not above the root, and the analysis runs
    there; when there is no marker up to the root nor within 20 levels,
    the hook only echoes its input. *)
Theorem walk_locates_marker_up_to_depth_20 {number} (node : Node number)
  (chunks : list string) (input : value number) (p : string) :
  JSON_parse node (VetHook.read_stdin chunks) = Some input ->
  event_file_path input = Some (VString p) ->
  regexp_go_test p = true ->
  fs_existsSync node (path_resolve node p) = true ->
  (forall d,
     d <= 20 ->
     (forall j, j < d ->
        ancestor node (start_dir node p) j
        <> path_parse_root node (start_dir node p)
        /\ has_marker node (ancestor node (start_dir node p) j) = false) ->
     has_marker node (ancestor node (start_dir node p) d) = true ->
     spawned (fst (VetHook.run node chunks))
     = [go_vet (ancestor node (start_dir node p) d)])
  /\ ((forall j,
         j <= 20 ->
         (forall i, i < j ->
            ancestor node (start_dir node p) i
            <> path_parse_root node (start_dir node p)) ->
         has_marker node (ancestor node (start_dir node p) j) = false) ->
      fst (VetHook.run node chunks)
      = [ConsoleLog (VetHook.read_stdin chunks)]).
Proof.
  intros Hparse Hfp Hgo Hfile. unfold VetHook.run.
  pose proof (vet_on_end_go_file node _ input p Hparse Hfp Hgo Hfile) as E.
  cbv zeta in E. split.
  - intros d Hd Hbelow Hmarker.
    rewrite (walk_finds_nearest node _ d _ 0) in E
      by (try lia; assumption).
    rewrite Hmarker in E. rewrite E. cbn [fst].
    apply spawned_analysis.
  - intros Hnone.
    rewrite (walk_finds_nothing node _ 20 _ 0) in E
      by (try lia; assumption).
    rewrite E. reflexivity.
Qed.

Lemma walk_locates_marker_up_to_depth_20_witness :
  spawned (fst (VetHook.run (Host.node Scenario.deep) Scenario.deep_event))
  = [go_vet "/m"]
  /\ fst (VetHook.run (Host.node Scenario.deeper) Scenario.deeper_event)
     = [ConsoleLog (VetHook.read_stdin Scenario.deeper_event)].
Proof.
  split.
  - refine (proj1 (walk_locates_marker_up_to_depth_20
                     (Host.node Scenario.deep) Scenario.deep_event
                     (VObject [("tool_input",
                                VObject [("file_path",
                                          VString Scenario.deep_file)])])
                     Scenario.deep_file _ _ _ _) 20 _ _ _).
    + vm_compute; reflexivity.
    + reflexivity.
    + vm_compute; reflexivity.
    + vm_compute; reflexivity.
    + lia.
    + intros j Hj.
      do 20 (destruct j as [|j];
             [split; [vm_compute; discriminate | vm_compute; reflexivity]|]).
      lia.
    + vm_compute; reflexivity.
  - refine (proj2 (walk_locates_marker_up_to_depth_20
                     (Host.node Scenario.deeper) Scenario.deeper_event
                     (VObject [("tool_input",
                                VObject [("file_path",
                                          VString Scenario.deeper_file)])])
                     Scenario.deeper_file _ _ _ _) _).
    + vm_compute; reflexivity.
    + reflexivity.
    + vm_compute; reflexivity.
    + vm_compute; reflexivity.
    + intros j Hj _.
      do 21 (destruct j as [|j]; [vm_compute; reflexivity|]).
      lia.
Defined.

(** *** C5 *)

Lemma skip_ws_only_spaces (n : nat) : Json.skip_ws (Scenario.spaces n) = "".
Proof. induction n as [|n IH]; simpl; [reflexivity | exact IH]. Qed.

(** The event is read whatever follows it. *)
Lemma read_event_followed (fuel : nat) (tail : string) :
  5 <= fuel ->
  Json.read_value fuel (Scenario.edit_event "/repo/pkg/x.go" ++ tail)
  = Some (Scenario.go_event_value, tail).
Proof.
  intros H. do 5 (destruct fuel as [|fuel]; [lia|]).
  cbn. reflexivity.
Qed.

Lemma parse_event_followed (tail : string) :
  Json.skip_ws tail = "" ->
  Json.parse (Scenario.edit_event "/repo/pkg/x.go" ++ tail)
  = Some Scenario.go_event_value.
Proof.
  intros H. unfold Json.parse.
  rewrite read_event_followed.
  - rewrite H. reflexivity.
  - rewrite length_append.
    change (String.length (Scenario.edit_event "/repo/pkg/x.go")) with 45.
    lia.
Qed.

(** C5: the buffer is not bounded by the cap.  The test is made before a
    chunk is appended and the chunk is appended whole: on an event
    followed by 16 chunks of 64 KiB of white space, valid JSON for a Go
    file, both hooks end with a buffer of 1048621 code units, 45 more
    than [MAX_STDIN]. *)
Theorem buffer_exceeds_cap :
  Json.parse (VetHook.read_stdin Scenario.padded_event)
  = Some Scenario.go_event_value
  /\ js_length (VetHook.read_stdin Scenario.padded_event) = 1048621%N
  /\ js_length (FormatHook.read_stdin Scenario.padded_event) = 1048621%N
  /\ (VetHook.MAX_STDIN < 1048621)%N.
Proof.
  rewrite (format_read_stdin_eq Scenario.padded_event).
  unfold VetHook.read_stdin, Scenario.padded_event.
  remember (N.to_nat 65536) as n eqn:Hn.
  assert (Hpad : js_length (Scenario.spaces n) = 65536%N).
  { unfold js_length. rewrite spaces_length, Hn. apply N2Nat.id. }
  remember (Scenario.spaces n) as pad eqn:Hp.
  assert (Hev : js_length (Scenario.edit_event "/repo/pkg/x.go") = 45%N)
    by (vm_compute; reflexivity).
  remember (Scenario.edit_event "/repo/pkg/x.go") as ev eqn:He.
  cbn [repeat fold_left].
  rewrite (on_data_below "") by (vm_compute; reflexivity).
  cbn [append].
  repeat match goal with
         | |- context [VetHook.on_data ?d ?c] =>
             lazymatch d with
             | context [VetHook.on_data _ _] => fail
             | _ =>
                 rewrite (on_data_below d c)
                   by (rewrite ?js_length_append, Hev, ?Hpad;
                       unfold VetHook.MAX_STDIN; lia)
             end
         end.
  split.
  - rewrite !append_assoc. subst ev. apply parse_event_followed.
    subst pad. rewrite !skip_ws_spaces. apply skip_ws_only_spaces.
  - split; [|split]; try (rewrite !js_length_append, Hev, Hpad; lia).
    unfold VetHook.MAX_STDIN. lia.
Qed.

(** * Further properties of the two scripts *)

(** ** The [data] handlers *)

Lemma fold_on_data_bound (m : N) (chunks : list string) (data : string) :
  (forall c, In c chunks -> (js_length c <= m)%N) ->
  (js_length data < VetHook.MAX_STDIN + m)%N ->
  (js_length (fold_left VetHook.on_data chunks data)
   < VetHook.MAX_STDIN + m)%N.
Proof.
  revert data. induction chunks as [|c rest IH]; intros data Hm Hd.
  - exact Hd.
  - cbn [fold_left]. apply IH.
    + intros c' Hc'. apply Hm. right. exact Hc'.
    + destruct (N.ltb_spec (js_length data) VetHook.MAX_STDIN) as [Hlt|Hge].
      * rewrite on_data_below by exact Hlt. rewrite js_length_append.
        pose proof (Hm c (or_introl eq_refl)). lia.
      * rewrite on_data_full by exact Hge. exact Hd.
Qed.

(** X1.  The bound the guard does give: when no chunk is longer than
    [m], the buffer of either hook stays below [MAX_STDIN + m]. *)
Theorem buffer_below_cap_plus_chunk (m : N) (chunks : list string) :
  (forall c, In c chunks -> (js_length c <= m)%N) ->
  (js_length (VetHook.read_stdin chunks) < VetHook.MAX_STDIN + m)%N
  /\ (js_length (FormatHook.read_stdin chunks)
      < FormatHook.MAX_STDIN + m)%N.
Proof.
  intros Hm. rewrite (format_read_stdin_eq chunks).
  change FormatHook.MAX_STDIN with VetHook.MAX_STDIN.
  assert (H : (js_length (VetHook.read_stdin chunks)
               < VetHook.MAX_STDIN + m)%N).
  { apply fold_on_data_bound; [exact Hm|].
    change (js_length "") with 0%N. unfold VetHook.MAX_STDIN. lia. }
  split; exact H.
Qed.

Lemma buffer_below_cap_plus_chunk_witness :
  (js_length (VetHook.read_stdin Scenario.go_event)
   < VetHook.MAX_STDIN + 64)%N
  /\ (js_length (FormatHook.read_stdin Scenario.go_event)
      < FormatHook.MAX_STDIN + 64)%N.
Proof.
  apply (buffer_below_cap_plus_chunk 64 Scenario.go_event).
  intros c [<-|[<-|[]]]; vm_compute; discriminate.
Defined.

Lemma read_stdin_app (chunks more : list string) :
  VetHook.read_stdin (chunks ++ more)
  = fold_left VetHook.on_data more (VetHook.read_stdin chunks).
Proof. unfold VetHook.read_stdin. apply fold_left_app. Qed.

(** X2.  Once the buffer has reached the cap, whatever arrives later is
    dropped: the buffer no longer changes. *)
Theorem full_buffer_ignores_rest (chunks more : list string) :
  (VetHook.MAX_STDIN <= js_length (VetHook.read_stdin chunks))%N ->
  VetHook.read_stdin (chunks ++ more) = VetHook.read_stdin chunks
  /\ FormatHook.read_stdin (chunks ++ more) = FormatHook.read_stdin chunks.
Proof.
  intros H.
  rewrite (format_read_stdin_eq chunks), (format_read_stdin_eq (chunks ++ more)).
  rewrite read_stdin_app, fold_on_data_full by exact H.
  split; reflexivity.
Qed.

Lemma read_stdin_one_mebibyte :
  VetHook.read_stdin [Scenario.spaces (N.to_nat 1048576)]
  = Scenario.spaces (N.to_nat 1048576).
Proof.
  unfold VetHook.read_stdin. cbn [fold_left].
  rewrite (on_data_below "") by (vm_compute; reflexivity).
  reflexivity.
Qed.

Lemma full_buffer_ignores_rest_witness :
  VetHook.read_stdin Scenario.overlong
  = VetHook.read_stdin [Scenario.spaces (N.to_nat 1048576)].
Proof.
  refine (proj1 (full_buffer_ignores_rest
                   [Scenario.spaces (N.to_nat 1048576)] ["x"] _)).
  rewrite read_stdin_one_mebibyte.
  unfold js_length. rewrite spaces_length, N2Nat.id.
  unfold VetHook.MAX_STDIN. lia.
Defined.

(** X3.  Within the cap the chunk boundaries do not matter: two streams
    that carry the same input give the same buffer, hence the same
    run. *)
Theorem chunking_irrelevant_within_cap {number} (node : Node number)
  (chunks chunks' : list string) :
  concat_chunks chunks = concat_chunks chunks' ->
  (js_length (concat_chunks chunks) <= VetHook.MAX_STDIN)%N ->
  VetHook.read_stdin chunks = VetHook.read_stdin chunks'
  /\ VetHook.run node chunks = VetHook.run node chunks'
  /\ FormatHook.run node chunks = FormatHook.run node chunks'.
Proof.
  intros Heq Hcap.
  assert (H : VetHook.read_stdin chunks = VetHook.read_stdin chunks').
  { rewrite (read_stdin_within_cap chunks Hcap).
    rewrite Heq in Hcap |- *.
    symmetry. apply read_stdin_within_cap. exact Hcap. }
  unfold VetHook.run, FormatHook.run.
  rewrite (format_read_stdin_eq chunks), (format_read_stdin_eq chunks'), H.
  repeat split.
Qed.

Lemma chunking_irrelevant_within_cap_witness :
  VetHook.run (Host.node Scenario.repo) Scenario.go_event
  = VetHook.run (Host.node Scenario.repo) Scenario.go_event_whole.
Proof.
  refine (proj1 (proj2 (chunking_irrelevant_within_cap
                          (Host.node Scenario.repo) Scenario.go_event
                          Scenario.go_event_whole _ _))).
  - vm_compute; reflexivity.
  - vm_compute; discriminate.
Defined.

(** ** The [end] handlers *)

(** X4.  Neither handler lets an exception escape, and both end with
    the echo: on every input and whatever the runtime answers, the exit
    code is 0 and the last call of the run is [console.log(data)], with
    no other [console.log] before it. *)
Theorem hooks_always_complete_with_echo {number} (node : Node number)
  (chunks : list string) :
  (exit_code (VetHook.run node chunks) = 0%N
   /\ exists pre,
        fst (VetHook.run node chunks)
        = (pre ++ [ConsoleLog (VetHook.read_stdin chunks)])%list
        /\ logged pre = [])
  /\ (exit_code (FormatHook.run node chunks) = 0%N
      /\ exists pre,
           fst (FormatHook.run node chunks)
           = (pre ++ [ConsoleLog (FormatHook.read_stdin chunks)])%list
           /\ logged pre = []).
Proof.
  unfold VetHook.run, FormatHook.run. split.
  - destruct (vet_on_end_shape node (VetHook.read_stdin chunks))
      as [pre [H Hpre]].
    rewrite H. split; [reflexivity|]. exists pre. split; [reflexivity|exact Hpre].
  - destruct (format_on_end_shape node (FormatHook.read_stdin chunks))
      as [pre [H Hpre]].
    rewrite H. split; [reflexivity|]. exists pre. split; [reflexivity|exact Hpre].
Qed.

(** X5.  A Go file that is not on disk: the vet hook returns early, it
    only echoes, also when a marker is in reach. *)
Theorem vet_missing_file_passthrough {number} (node : Node number)
  (chunks : list string) (input : value number) (p : string) :
  JSON_parse node (VetHook.read_stdin chunks) = Some input ->
  event_file_path input = Some (VString p) ->
  fs_existsSync node (path_resolve node p) = false ->
  passthrough (VetHook.read_stdin chunks) (VetHook.run node chunks).
Proof.
  intros Hparse Hfp Hfile. unfold VetHook.run, VetHook.on_end.
  rewrite (read_file_path node _ input (VString p) _ Hparse Hfp).
  unfold truthy_and_go_test. cbn [to_string].
  destruct (truthy node (VString p)); [|apply passthrough_intro].
  rewrite bind_ret_l.
  destruct (regexp_go_test p); [|apply passthrough_intro].
  cbn [path_argument]. rewrite bind_ret_l, Hfile.
  apply passthrough_intro.
Qed.

Lemma vet_missing_file_passthrough_witness :
  has_marker (Host.node Scenario.repo) "/repo" = true
  /\ passthrough (VetHook.read_stdin Scenario.gone_event)
       (VetHook.run (Host.node Scenario.repo) Scenario.gone_event).
Proof.
  split; [vm_compute; reflexivity|].
  apply (vet_missing_file_passthrough (Host.node Scenario.repo)
           Scenario.gone_event
           (VObject [("tool_input",
                      VObject [("file_path", VString "/repo/pkg/gone.go")])])
           "/repo/pkg/gone.go").
  - vm_compute; reflexivity.
  - reflexivity.
  - vm_compute; reflexivity.
Defined.

(** X6.  A path that is not a string (a number, a boolean, null, an
    array, an object): the vet hook only echoes.  When the value passes
    the suffix test, as an array like [["x.go"]] does, [path.resolve]
    throws and the handler absorbs it. *)
Theorem vet_non_string_path_passthrough {number} (node : Node number)
  (chunks : list string) (input fp : value number) :
  JSON_parse node (VetHook.read_stdin chunks) = Some input ->
  event_file_path input = Some fp ->
  (forall s, fp <> VString s) ->
  passthrough (VetHook.read_stdin chunks) (VetHook.run node chunks).
Proof.
  intros Hparse Hfp Hns. unfold VetHook.run, VetHook.on_end.
  rewrite (read_file_path node _ input fp _ Hparse Hfp).
  unfold truthy_and_go_test.
  destruct (truthy node fp); [|apply passthrough_intro].
  destruct (to_string node fp) as [s|]; [|apply passthrough_intro].
  rewrite bind_ret_l.
  destruct (regexp_go_test s); [|apply passthrough_intro].
  destruct fp; try apply passthrough_intro.
  exfalso. eapply Hns. reflexivity.
Qed.

Lemma vet_non_string_path_passthrough_witness :
  option_map regexp_go_test
    (to_string (Host.node Scenario.repo) (VArray [VString "x.go"]))
  = Some true
  /\ passthrough (VetHook.read_stdin Scenario.array_event)
       (VetHook.run (Host.node Scenario.repo) Scenario.array_event).
Proof.
  split; [vm_compute; reflexivity|].
  apply (vet_non_string_path_passthrough (Host.node Scenario.repo)
           Scenario.array_event
           (VObject [("tool_input",
                      VObject [("file_path", VArray [VString "x.go"])])])
           (VArray [VString "x.go"])).
  - vm_compute; reflexivity.
  - reflexivity.
  - intros s H. discriminate H.
Defined.

(** X7.  For an event whose path ends in [.go], the format hook runs
    [goimports -w] on exactly that path, once, and then echoes; whether
    the formatter succeeds or fails makes no difference to the run. *)
Theorem format_runs_goimports_on_go_path {number} (node : Node number)
  (chunks : list string) (input : value number) (p : string) :
  JSON_parse node (FormatHook.read_stdin chunks) = Some input ->
  event_file_path input = Some (VString p) ->
  regexp_go_test p = true ->
  FormatHook.run node chunks
  = ([goimports (VString p); ConsoleLog (FormatHook.read_stdin chunks)],
     Normal tt).
Proof.
  intros Hparse Hfp Hgo. unfold FormatHook.run, FormatHook.on_end.
  rewrite (read_file_path node _ input (VString p) _ Hparse Hfp).
  rewrite (go_path_truthy node p Hgo), bind_ret_l.
  unfold execFileSync, goimports, emit.
  destruct (child_process_execFileSync node "goimports"
              [VString "-w"; VString p] None); reflexivity.
Qed.

Lemma format_runs_goimports_on_go_path_witness :
  FormatHook.run (Host.node Scenario.repo) Scenario.go_event
  = FormatHook.run (Host.node Scenario.repo_without_tools) Scenario.go_event.
Proof.
  rewrite (format_runs_goimports_on_go_path (Host.node Scenario.repo)
             Scenario.go_event Scenario.go_event_value "/repo/pkg/x.go");
    [|vm_compute; reflexivity | reflexivity | vm_compute; reflexivity].
  rewrite (format_runs_goimports_on_go_path
             (Host.node Scenario.repo_without_tools)
             Scenario.go_event Scenario.go_event_value "/repo/pkg/x.go");
    [|vm_compute; reflexivity | reflexivity | vm_compute; reflexivity].
  reflexivity.
Defined.

(** X8.  At most one subprocess per run, and only the hook's own tool:
    the vet hook starts nothing or one [go vet ./...], the format hook
    nothing or one [goimports -w]. *)
Theorem at_most_one_subprocess {number} (node : Node number)
  (chunks : list string) :
  (spawned (fst (VetHook.run node chunks)) = []
   \/ exists dir, spawned (fst (VetHook.run node chunks)) = [go_vet dir])
  /\ (spawned (fst (FormatHook.run node chunks)) = []
      \/ exists fp,
           spawned (fst (FormatHook.run node chunks)) = [goimports fp]).
Proof.
  unfold VetHook.run, FormatHook.run. split.
  - destruct (vet_on_end_cases node (VetHook.read_stdin chunks))
      as [H | (input & p & Hparse & Hfp & Hgo & Hfile & Hm)].
    + left. rewrite H. reflexivity.
    + pose proof (vet_on_end_go_file node _ input p Hparse Hfp Hgo Hfile) as E.
      cbv zeta in E. rewrite Hm in E.
      right. eexists. rewrite E. cbn [fst]. apply spawned_analysis.
  - destruct (format_on_end_cases node (FormatHook.read_stdin chunks))
      as [H | [fp H]]; rewrite H.
    + left. reflexivity.
    + right. exists fp. reflexivity.
Qed.

(** X9.  The format hook never writes to standard error. *)
Theorem format_never_reports {number} (node : Node number)
  (chunks : list string) :
  reported (fst (FormatHook.run node chunks)) = []
  /\ stderr_of (fst (FormatHook.run node chunks)) = "".
Proof.
  unfold FormatHook.run.
  destruct (format_on_end_cases node (FormatHook.read_stdin chunks))
    as [H | [fp H]]; rewrite H; split; reflexivity.
Qed.

(** ** Where the analysis runs *)

(** The walk stops some levels up, fewer than it has left; no directory
    it passed is the root or holds a marker. *)
Lemma walk_result {number} (node : Node number) (root : string) (n : nat) :
  forall dir depth,
    depth + n = 20 ->
    exists k,
      k <= n
      /\ VetHook.walk node root dir depth = ancestor node dir k
      /\ forall j, j < k ->
           ancestor node dir j <> root
           /\ has_marker node (ancestor node dir j) = false.
Proof.
  induction n as [|n IH]; intros dir depth Hdepth.
  - exists 0. split; [lia|]. split; [|intros j Hj; lia].
    rewrite walk_step.
    assert (Hge : (depth <? 20)%nat = false) by (apply Nat.ltb_ge; lia).
    rewrite Hge, andb_false_r. reflexivity.
  - rewrite walk_step.
    destruct (negb (dir =? root) && (depth <? 20)%nat) eqn:Hc.
    2:{ exists 0. split; [lia|]. split; [reflexivity | intros j Hj; lia]. }
    destruct (has_marker node dir) eqn:Hm.
    { exists 0. split; [lia|]. split; [reflexivity | intros j Hj; lia]. }
    apply andb_prop in Hc. destruct Hc as [Hroot _].
    apply negb_true_iff, String.eqb_neq in Hroot.
    destruct (IH (path_dirname node dir) (S depth) ltac:(lia))
      as (k & Hk & Hwalk & Hbelow).
    exists (S k). split; [lia|]. split.
    + rewrite ancestor_succ. exact Hwalk.
    + intros [|j] Hj.
      * split; [exact Hroot | exact Hm].
      * rewrite ancestor_succ. apply Hbelow. lia.
Qed.

(** X10.  The analysis never runs anywhere but at the nearest module
    root: when a run contains [go vet] in [dir], the event names a Go
    file that is on disk, [dir] holds a marker and lies [k <= 20] levels
    above the file's directory, and no directory below it on the way is
    the root or holds a marker. *)
Theorem analysis_only_at_nearest_marker {number} (node : Node number)
  (chunks : list string) (dir : string) :
  In (go_vet dir) (fst (VetHook.run node chunks)) ->
  exists input p k,
    JSON_parse node (VetHook.read_stdin chunks) = Some input
    /\ event_file_path input = Some (VString p)
    /\ regexp_go_test p = true
    /\ fs_existsSync node (path_resolve node p) = true
    /\ k <= 20
    /\ dir = ancestor node (start_dir node p) k
    /\ has_marker node dir = true
    /\ forall j, j < k ->
         ancestor node (start_dir node p) j
         <> path_parse_root node (start_dir node p)
         /\ has_marker node (ancestor node (start_dir node p) j) = false.
Proof.
  unfold VetHook.run. intros Hin.
  destruct (vet_on_end_cases node (VetHook.read_stdin chunks))
    as [H | (input & p & Hparse & Hfp & Hgo & Hfile & Hm)].
  - rewrite H in Hin. destruct Hin as [Heq|[]]. discriminate Heq.
  - pose proof (vet_on_end_go_file node _ input p Hparse Hfp Hgo Hfile) as E.
    cbv zeta in E. rewrite Hm in E.
    rewrite E in Hin. cbn [fst] in Hin.
    assert (Hdir : dir = VetHook.walk node
                           (path_parse_root node (start_dir node p))
                           (start_dir node p) 0).
    { destruct Hin as [Heq|Hin].
      - injection Heq as <-. reflexivity.
      - apply in_app_or in Hin. destruct Hin as [Hin|[Heq|[]]].
        + apply In_errors_inv in Hin. destruct Hin as [s Hs]. discriminate Hs.
        + discriminate Heq. }
    destruct (walk_result node (path_parse_root node (start_dir node p)) 20
                (start_dir node p) 0 eq_refl) as (k & Hk & Hwalk & Hbelow).
    exists input, p, k.
    rewrite <- Hdir in Hm. rewrite Hwalk in Hdir.
    repeat split; try assumption; apply Hbelow; assumption.
Qed.

Lemma analysis_only_at_nearest_marker_witness :
  exists input p k,
    JSON_parse (Host.node Scenario.deep)
      (VetHook.read_stdin Scenario.deep_event) = Some input
    /\ event_file_path input = Some (VString p)
    /\ regexp_go_test p = true
    /\ fs_existsSync (Host.node Scenario.deep)
         (path_resolve (Host.node Scenario.deep) p) = true
    /\ k <= 20
    /\ "/m" = ancestor (Host.node Scenario.deep)
                (start_dir (Host.node Scenario.deep) p) k
    /\ has_marker (Host.node Scenario.deep) "/m" = true
    /\ forall j, j < k ->
         ancestor (Host.node Scenario.deep)
           (start_dir (Host.node Scenario.deep) p) j
         <> path_parse_root (Host.node Scenario.deep)
              (start_dir (Host.node Scenario.deep) p)
         /\ has_marker (Host.node Scenario.deep)
              (ancestor (Host.node Scenario.deep)
                 (start_dir (Host.node Scenario.deep) p) j) = false.
Proof.
  apply (analysis_only_at_nearest_marker (Host.node Scenario.deep)
           Scenario.deep_event "/m").
  vm_compute. left. reflexivity.
Defined.

(** ** The report *)

Lemma firstn_In {A} (n : nat) (l : list A) (x : A) :
  In x (firstn n l) -> In x l.
Proof.
  revert l. induction n as [|n IH]; intros [|y l] H;
    try (destruct H; fail).
  destruct H as [H|H]; [left; exact H | right; apply IH; exact H].
Qed.

(** X11.  The shape of every report: standard error of the vet hook is
    either untouched, or holds the banner for the event's path followed
    by one to ten lines, each of which is a line of the combined output
    of the failed analysis and mentions the file. *)
Theorem report_shape {number} (node : Node number) (chunks : list string) :
  reported (fst (VetHook.run node chunks)) = []
  \/ exists input p dir err lines,
       JSON_parse node (VetHook.read_stdin chunks) = Some input
       /\ event_file_path input = Some (VString p)
       /\ child_process_execFileSync node "go"
            [VString "vet"; VString "./..."] (Some dir) = ExecThrows err
       /\ reported (fst (VetHook.run node chunks)) = banner node p :: lines
       /\ 1 <= length lines <= 10
       /\ Forall (fun l => In l (split_lines (combined_output err))
                           /\ mentions node p l = true) lines.
Proof.
  unfold VetHook.run.
  destruct (vet_on_end_cases node (VetHook.read_stdin chunks))
    as [H | (input & p & Hparse & Hfp & Hgo & Hfile & Hm)].
  - left. rewrite H. reflexivity.
  - pose proof (vet_on_end_go_file node _ input p Hparse Hfp Hgo Hfile) as E.
    cbv zeta in E. rewrite Hm in E. rewrite E. cbn [fst].
    rewrite reported_analysis. unfold analysis_lines.
    set (dir := VetHook.walk node (path_parse_root node (start_dir node p))
                  (start_dir node p) 0).
    destruct (child_process_execFileSync node "go"
                [VString "vet"; VString "./..."] (Some dir)) as [|err] eqn:Hexec;
      [left; reflexivity|].
    unfold report_lines.
    destruct (filter (mentions node p) (split_lines (combined_output err)))
      as [|l ls] eqn:Hf; [left; reflexivity|].
    right. exists input, p, dir, err, (firstn 10 (l :: ls)).
    split; [exact Hparse|]. split; [exact Hfp|]. split; [exact Hexec|].
    split; [reflexivity|]. split.
    + rewrite length_firstn. cbn [length]. lia.
    + apply Forall_forall. intros x Hx.
      apply firstn_In in Hx. rewrite <- Hf in Hx.
      apply filter_In in Hx. exact Hx.
Qed.

Lemma prefix_iff (n s : string) :
  String.prefix n s = true <-> exists b, s = n ++ b.
Proof.
  revert s. induction n as [|c n IH]; intros s.
  - split; [intros _; exists s; reflexivity | intros _; destruct s; reflexivity].
  - destruct s as [|c' s]; cbn [String.prefix append].
    + split; [discriminate | intros [b Hb]; discriminate Hb].
    + destruct (ascii_dec c c') as [->|Hne].
      * rewrite IH. split; intros [b Hb]; exists b.
        -- now rewrite Hb.
        -- now injection Hb.
      * split; [discriminate|].
        intros [b Hb]. injection Hb as Hc _. congruence.
Qed.

Lemma includes_iff (s n : string) :
  includes s n = true <-> exists a b, s = a ++ n ++ b.
Proof.
  induction s as [|c s IH]; cbn [includes].
  - rewrite orb_false_r, prefix_iff. split.
    + intros [b Hb]. exists "", b. exact Hb.
    + intros [a [b Hab]]. destruct a as [|x a]; [|discriminate Hab].
      exists b. exact Hab.
  - rewrite orb_true_iff, prefix_iff, IH. split.
    + intros [[b Hb]|[a [b Hab]]].
      * exists "", b. exact Hb.
      * exists (String c a), b. cbn [append]. now rewrite Hab.
    + intros [a [b Hab]]. destruct a as [|x a].
      * left. exists b. exact Hab.
      * right. cbn [append] in Hab. injection Hab as _ Hab.
        exists a, b. exact Hab.
Qed.

Lemma includes_trans (s p n : string) :
  includes s p = true -> includes p n = true -> includes s n = true.
Proof.
  rewrite !includes_iff. intros [a [b Hs]] [c [d Hp]].
  exists (a ++ c), (d ++ b). rewrite Hs, Hp.
  now rewrite !append_assoc.
Qed.

(** X12.  The path test of the line filter adds nothing when the base
    name occurs in the path, as it does for what [path.basename]
    returns: the lines kept are exactly those that contain the base
    name, so a line about another file with the same base name is kept
    too. *)
Theorem mentions_is_basename_match {number} (node : Node number)
  (p : string) :
  includes p (path_basename node p) = true ->
  forall line, mentions node p line = includes line (path_basename node p).
Proof.
  intros Hb line. unfold mentions.
  destruct (includes line (path_basename node p)) eqn:Hl;
    [apply orb_true_r|].
  rewrite orb_false_r.
  destruct (includes line p) eqn:Hp; [|reflexivity].
  rewrite (includes_trans line p _ Hp Hb) in Hl. discriminate Hl.
Qed.

Lemma mentions_is_basename_match_witness :
  mentions (Host.node Scenario.repo) "/repo/pkg/x.go"
    "/other/module/x.go:3:1: unrelated"
  = includes "/other/module/x.go:3:1: unrelated"
      (path_basename (Host.node Scenario.repo) "/repo/pkg/x.go")
  /\ mentions (Host.node Scenario.repo) "/repo/pkg/x.go"
       "/other/module/x.go:3:1: unrelated" = true.
Proof.
  split; [|vm_compute; reflexivity].
  apply (mentions_is_basename_match (Host.node Scenario.repo)
           "/repo/pkg/x.go").
  vm_compute; reflexivity.
Defined.

(** A run of the vet hook that contains an analysis: the event, and the
    whole run. *)
Lemma vet_analysis_inv {number} (node : Node number) (data dir : string) :
  In (go_vet dir) (fst (VetHook.on_end node data)) ->
  exists input p,
    JSON_parse node data = Some input
    /\ event_file_path input = Some (VString p)
    /\ regexp_go_test p = true
    /\ VetHook.on_end node data
       = ((go_vet dir :: map (@ConsoleError number) (analysis_lines node p dir)
             ++ [ConsoleLog data])%list, Normal tt).
Proof.
  intros Hin.
  destruct (vet_on_end_cases node data)
    as [H | (input & p & Hparse & Hfp & Hgo & Hfile & Hm)].
  - rewrite H in Hin. destruct Hin as [Heq|[]]. discriminate Heq.
  - pose proof (vet_on_end_go_file node data input p Hparse Hfp Hgo Hfile)
      as E.
    cbv zeta in E. rewrite Hm in E.
    exists input, p. repeat (split; [assumption|]).
    rewrite E in Hin. cbn [fst] in Hin.
    destruct Hin as [Heq|Hin].
    + injection Heq as <-. exact E.
    + apply in_app_or in Hin. destruct Hin as [Hin|[Heq|[]]].
      * apply In_errors_inv in Hin. destruct Hin as [s Hs]. discriminate Hs.
      * discriminate Heq.
Qed.

Lemma includes_empty_line (n : string) : n <> "" -> includes "" n = false.
Proof. intros H. destruct n; [contradiction | reflexivity]. Qed.

(** X13.  A failure that carries no output (the tool is not installed,
    the spawn fails) is absorbed without a report, as long as the base
    name of the path is not empty. *)
Theorem failure_without_output_is_silent {number} (node : Node number)
  (chunks : list string) (input : value number) (p dir : string)
  (err : error) :
  JSON_parse node (VetHook.read_stdin chunks) = Some input ->
  event_file_path input = Some (VString p) ->
  path_basename node p <> "" ->
  In (go_vet dir) (fst (VetHook.run node chunks)) ->
  child_process_execFileSync node "go" [VString "vet"; VString "./..."]
    (Some dir) = ExecThrows err ->
  combined_output err = "" ->
  fst (VetHook.run node chunks)
  = [go_vet dir; ConsoleLog (VetHook.read_stdin chunks)]
  /\ stderr_of (fst (VetHook.run node chunks)) = "".
Proof.
  unfold VetHook.run. intros Hparse Hfp Hbase Hin Hfail Hout.
  destruct (vet_analysis_inv node _ dir Hin)
    as (input' & p' & Hparse' & Hfp' & Hgo & E).
  rewrite Hparse in Hparse'. injection Hparse' as <-.
  rewrite Hfp in Hfp'. injection Hfp' as <-.
  assert (Hp : p <> "") by (intros ->; discriminate Hgo).
  unfold analysis_lines in E. rewrite Hfail in E.
  unfold report_lines in E. rewrite Hout in E.
  cbn [split_lines filter] in E. unfold mentions in E.
  rewrite (includes_empty_line p Hp), (includes_empty_line _ Hbase) in E.
  cbn [orb map app] in E.
  rewrite E. split; reflexivity.
Qed.

Lemma failure_without_output_is_silent_witness :
  fst (VetHook.run (Host.node Scenario.repo_without_tools) Scenario.go_event)
  = [go_vet "/repo";
     ConsoleLog (VetHook.read_stdin Scenario.go_event)]
  /\ stderr_of (fst (VetHook.run (Host.node Scenario.repo_without_tools)
                       Scenario.go_event)) = "".
Proof.
  apply (failure_without_output_is_silent
           (Host.node Scenario.repo_without_tools) Scenario.go_event
           Scenario.go_event_value "/repo/pkg/x.go" "/repo"
           (Error None None)).
  - vm_compute; reflexivity.
  - reflexivity.
  - vm_compute; discriminate.
  - vm_compute. left. reflexivity.
  - reflexivity.
  - reflexivity.
Defined.

(** The format hook on an event for a Go path. *)
Lemma format_on_end_go_path {number} (node : Node number) (data : string)
  (input : value number) (p : string) :
  JSON_parse node data = Some input ->
  event_file_path input = Some (VString p) ->
  regexp_go_test p = true ->
  FormatHook.on_end node data
  = ([goimports (VString p); ConsoleLog data], Normal tt).
Proof.
  intros Hparse Hfp Hgo. unfold FormatHook.on_end.
  rewrite (read_file_path node _ input (VString p) _ Hparse Hfp).
  rewrite (go_path_truthy node p Hgo), bind_ret_l.
  unfold execFileSync, goimports, emit.
  destruct (child_process_execFileSync node "goimports"
              [VString "-w"; VString p] None); reflexivity.
Qed.

(** X14.  The two hooks on the same event: whenever the vet hook
    analyses, the format hook formats the file the event names; the
    vet hook has the narrower entry conditions. *)
Theorem vet_analysis_implies_format {number} (node : Node number)
  (chunks : list string) (dir : string) :
  In (go_vet dir) (fst (VetHook.run node chunks)) ->
  exists input p,
    JSON_parse node (VetHook.read_stdin chunks) = Some input
    /\ event_file_path input = Some (VString p)
    /\ fst (FormatHook.run node chunks)
       = [goimports (VString p);
          ConsoleLog (FormatHook.read_stdin chunks)].
Proof.
  unfold VetHook.run, FormatHook.run. intros Hin.
  destruct (vet_analysis_inv node _ dir Hin)
    as (input & p & Hparse & Hfp & Hgo & _).
  exists input, p. split; [exact Hparse|]. split; [exact Hfp|].
  rewrite (format_read_stdin_eq chunks).
  rewrite (format_on_end_go_path node _ input p Hparse Hfp Hgo).
  reflexivity.
Qed.

Lemma vet_analysis_implies_format_witness :
  exists input p,
    JSON_parse (Host.node Scenario.repo)
      (VetHook.read_stdin Scenario.go_event) = Some input
    /\ event_file_path input = Some (VString p)
    /\ fst (FormatHook.run (Host.node Scenario.repo) Scenario.go_event)
       = [goimports (VString p);
          ConsoleLog (FormatHook.read_stdin Scenario.go_event)].
Proof.
  apply (vet_analysis_implies_format (Host.node Scenario.repo)
           Scenario.go_event "/repo").
  vm_compute. left. reflexivity.
Defined.

(** X15.  The format hook does not check that the path is a string:
    for any truthy value whose string form ends in [.go], it calls
    [execFileSync] with that value as the argument after [-w], and then
    echoes (the vet hook only echoes on such an event).  For a truthy
    value that has no string form the suffix test throws, and the
    format hook only echoes. *)
Theorem format_accepts_any_go_like_value {number} (node : Node number)
  (chunks : list string) (input fp : value number) :
  JSON_parse node (FormatHook.read_stdin chunks) = Some input ->
  event_file_path input = Some fp ->
  truthy node fp = true ->
  (forall s,
     to_string node fp = Some s ->
     regexp_go_test s = true ->
     FormatHook.run node chunks
     = ([goimports fp; ConsoleLog (FormatHook.read_stdin chunks)],
        Normal tt))
  /\ (to_string node fp = None ->
      FormatHook.run node chunks
      = ([ConsoleLog (FormatHook.read_stdin chunks)], Normal tt)).
Proof.
  intros Hparse Hfp Htruthy. unfold FormatHook.run, FormatHook.on_end.
  rewrite (read_file_path node _ input fp _ Hparse Hfp).
  unfold truthy_and_go_test. rewrite Htruthy. split.
  - intros s Hs Hgo. rewrite Hs, bind_ret_l, Hgo.
    unfold execFileSync, goimports, emit.
    destruct (child_process_execFileSync node "goimports"
                [VString "-w"; fp] None); reflexivity.
  - intros Hnone. rewrite Hnone. reflexivity.
Qed.

Lemma format_accepts_any_go_like_value_witness :
  (FormatHook.run (Host.node Scenario.repo) Scenario.array_event
   = ([goimports (VArray [VString "x.go"]);
       ConsoleLog (FormatHook.read_stdin Scenario.array_event)], Normal tt)
   /\ fst (VetHook.run (Host.node Scenario.repo) Scenario.array_event)
      = [ConsoleLog (VetHook.read_stdin Scenario.array_event)])
  /\ FormatHook.run (Host.node Scenario.repo) Scenario.tostring_event
     = ([ConsoleLog (FormatHook.read_stdin Scenario.tostring_event)],
        Normal tt).
Proof.
  split; [split; [|vm_compute; reflexivity]|].
  - refine (proj1 (format_accepts_any_go_like_value
                     (Host.node Scenario.repo) Scenario.array_event
                     (VObject [("tool_input",
                                VObject [("file_path",
                                          VArray [VString "x.go"])])])
                     (VArray [VString "x.go"]) _ _ _) "x.go" _ _).
    + vm_compute; reflexivity.
    + reflexivity.
    + reflexivity.
    + vm_compute; reflexivity.
    + vm_compute; reflexivity.
  - refine (proj2 (format_accepts_any_go_like_value
                     (Host.node Scenario.repo) Scenario.tostring_event
                     (VObject
                        [("tool_input",
                          VObject
                            [("file_path",
                              VArray [VObject [("toString", VNumber "1")];
                                      VString "x.go"])])])
                     (VArray [VObject [("toString", VNumber "1")];
                              VString "x.go"]) _ _ _) _).
    + vm_compute; reflexivity.
    + reflexivity.
    + reflexivity.
    + vm_compute; reflexivity.
Defined.
